(** * Snowflake -> DuckDB extract/load pipeline: a shallow embedding

  The development embeds [data_pipeline.py] (class [DataPipeline]).
  The Python object, the two database drivers and the logger are modelled
  by explicit state passing in a small state-and-exception monad [Py]:

  - the pipeline object is the pair of fields [snowflake_conn] and
    [duckdb_conn];
  - the warehouse and the embedded store are an environment [Env] of
    oracles (what each driver call answers or raises) together with the
    mutable part of the world (live sessions, catalog of the local store);
  - every [logger] call and every driver call is appended to a trace.

  Strings are ASCII strings; Python integers are [Z]. *)

From Stdlib Require Import ZArith Ascii String List Bool Lia.
From stdpp Require Import base decidable option list strings gmap fin_maps pretty.

Local Open Scope string_scope.
Local Open Scope list_scope.

(** ** Python string operations used by the pipeline *)

Module PyStr.

Definition upper_ascii (c : ascii) : ascii :=
  let n := nat_of_ascii c in
  if (97 <=? n)%nat && (n <=? 122)%nat then ascii_of_nat (n - 32) else c.

Definition lower_ascii (c : ascii) : ascii :=
  let n := nat_of_ascii c in
  if (65 <=? n)%nat && (n <=? 90)%nat then ascii_of_nat (n + 32) else c.

Fixpoint map_chars (f : ascii -> ascii) (s : string) : string :=
  match s with
  | EmptyString => EmptyString
  | String c s' => String (f c) (map_chars f s')
  end.

(** [s.upper()] and [s.lower()] *)
Definition upper (s : string) : string := map_chars upper_ascii s.
Definition lower (s : string) : string := map_chars lower_ascii s.

(** [s.replace(old, new)] for one-character [old] and [new] *)
Definition replace (old new : ascii) (s : string) : string :=
  map_chars (fun c => if Ascii.eqb c old then new else c) s.

(** [needle in s] *)
Fixpoint contains (needle s : string) : bool :=
  String.prefix needle s ||
  match s with
  | EmptyString => false
  | String _ s' => contains needle s'
  end.

(** [s.rstrip(c)] for a one-character strip set *)
Fixpoint rstrip (c : ascii) (s : string) : string :=
  match s with
  | EmptyString => EmptyString
  | String a s' =>
      match rstrip c s' with
      | EmptyString => if Ascii.eqb a c then EmptyString else String a EmptyString
      | r => String a r
      end
  end.

(** [s[:n]] *)
Definition slice_to (n : nat) (s : string) : string := String.substring 0 n s.

(** truth value of an optional string argument: [None] and [''] are false *)
Definition truthy (o : option string) : bool :=
  match o with
  | Some (String _ _) => true
  | _ => false
  end.

End PyStr.

(** ** Data model *)

(** Python exceptions: class name and message ([str(e)]). *)
Record exn := Exn { exn_type : string; exn_msg : string }.

(** [Exception(msg)] as raised by the pipeline itself *)
Definition Exception (msg : string) : exn := Exn "Exception" msg.

Definition str (e : exn) : string := exn_msg e.

Inductive value := VNull | VInt (z : Z) | VStr (s : string).

(** What a cursor hands back from [fetchall()]: the column names of the
  statement and the rows. *)
Record Fetched := { f_columns : list string; f_rows : list (list value) }.

(** A pandas DataFrame: column index and rows. *)
Record DataFrame := { df_columns : list string; df_rows : list (list value) }.

(** [pd.DataFrame()] *)
Definition DataFrame_new : DataFrame := {| df_columns := []; df_rows := [] |}.

(** [pd.DataFrame(results)] for a non-empty list of dictionary rows *)
Definition DataFrame_of (r : Fetched) : DataFrame :=
{| df_columns := f_columns r; df_rows := f_rows r |}.

(** [len(df)] and [len(df.columns)] *)
Definition df_len (df : DataFrame) : nat := length (df_rows df).
Definition df_width (df : DataFrame) : nat := length (df_columns df).

(** [df.empty]: true when either axis has length zero *)
Definition df_empty (df : DataFrame) : bool :=
(df_len df =? 0)%nat || (df_width df =? 0)%nat.

Definition handle := nat.

Inductive level := INFO | WARNING | ERROR.

(** Statements the loader sends to the local store. *)
Inductive stmt :=
| DropTableIfExists (name : string)
| CreateTableAsSelect (name src : string)
| SelectCount (name : string).

(** The SQL text the f-strings of [write_to_duckdb] build. *)
Definition sql (q : stmt) : string :=
match q with
| DropTableIfExists n => "DROP TABLE IF EXISTS " +:+ n
| CreateTableAsSelect n src => "CREATE TABLE " +:+ n +:+ " AS SELECT * FROM " +:+ src
| SelectCount n => "SELECT COUNT(*) FROM " +:+ n
end.

(** Observable actions, in program order. *)
Inductive event :=
| Log (lv : level) (msg : string)
| SfConnect (insecure_mode : bool)
| SfShow (text : string)
| SfQuery (text : string)
| SfClose (h : handle)
| DuckConnect (path : string)
| DuckExecute (text : string)
| DuckRegister (name : string)
| DuckUnregister (name : string)
| DuckClose (h : handle).

(** The environment: configuration and the answers of the two drivers.
  A fault is the exception the driver raises; [None] means the call goes
  through. *)
Record Env := {
SNOWFLAKE_DATABASE : string;
SNOWFLAKE_SCHEMA : string;
sf_connect_fault : bool -> option exn;          (* by [insecure_mode] *)
sf_show : string -> exn + list (list string);   (* plain cursor: tuples *)
sf_query : string -> exn + Fetched;             (* DictCursor *)
sf_close_fault : option exn;
duck_connect_fault : option exn;
duck_fault : string -> option exn;              (* by statement text *)
duck_close_fault : option exn
}.

Definition DUCKDB_PATH : string := "local_data.duckdb".

(** The pipeline object together with the mutable world. *)
Record State := {
snowflake_conn : option handle;
duckdb_conn : option handle;
sf_live : gset handle;            (* open warehouse sessions *)
duck_live : gset handle;          (* open local sessions *)
next_handle : handle;
tables : gmap string DataFrame;   (* catalog of the local store *)
views : gmap string DataFrame;    (* registered staging bindings *)
trace : list event
}.

(** [DataPipeline.__init__] on a world with nothing open and an empty store *)
Definition init : State :=
{| snowflake_conn := None; duckdb_conn := None; sf_live := ∅; duck_live := ∅;
   next_handle := 0; tables := ∅; views := ∅; trace := [] |}.

(** ** The monad: state and exceptions *)

Inductive outcome (A : Type) :=
| Return (a : A)
| Raise (e : exn).
Arguments Return {A} a.
Arguments Raise {A} e.

Definition Py (A : Type) : Type := State -> outcome A * State.

Definition ret {A} (a : A) : Py A := fun s => (Return a, s).
Definition raise {A} (e : exn) : Py A := fun s => (Raise e, s).

Definition bind {A B} (m : Py A) (k : A -> Py B) : Py B :=
fun s => match m s with
         | (Return a, s') => k a s'
         | (Raise e, s') => (Raise e, s')
         end.

(** [try: m except Exception as e: h e] *)
Definition try_except {A} (m : Py A) (h : exn -> Py A) : Py A :=
fun s => match m s with
         | (Return a, s') => (Return a, s')
         | (Raise e, s') => h e s'
         end.

(** [try: m finally: f]; an exception of [f] replaces the pending outcome *)
Definition try_finally {A} (m : Py A) (f : Py unit) : Py A :=
fun s => match m s with
         | (r, s') => match f s' with
                      | (Return _, s'') => (r, s'')
                      | (Raise e, s'') => (Raise e, s'')
                      end
         end.

Global Instance Py_ret : MRet Py := @ret.
Global Instance Py_bind : MBind Py := fun A B k m => bind m k.

Definition get {A} (f : State -> A) : Py A := fun s => (Return (f s), s).

(** Field updates. *)
Definition emit (ev : event) : Py unit := fun s =>
(Return tt,
 {| snowflake_conn := snowflake_conn s; duckdb_conn := duckdb_conn s;
    sf_live := sf_live s; duck_live := duck_live s; next_handle := next_handle s;
    tables := tables s; views := views s; trace := trace s ++ [ev] |}).

Definition set_snowflake_conn (h : handle) : Py unit := fun s =>
(Return tt,
 {| snowflake_conn := Some h; duckdb_conn := duckdb_conn s;
    sf_live := sf_live s; duck_live := duck_live s; next_handle := next_handle s;
    tables := tables s; views := views s; trace := trace s |}).

Definition set_duckdb_conn (h : handle) : Py unit := fun s =>
(Return tt,
 {| snowflake_conn := snowflake_conn s; duckdb_conn := Some h;
    sf_live := sf_live s; duck_live := duck_live s; next_handle := next_handle s;
    tables := tables s; views := views s; trace := trace s |}).

Definition set_sf_live (L : gset handle) (n : handle) : Py unit := fun s =>
(Return tt,
 {| snowflake_conn := snowflake_conn s; duckdb_conn := duckdb_conn s;
    sf_live := L; duck_live := duck_live s; next_handle := n;
    tables := tables s; views := views s; trace := trace s |}).

Definition set_duck_live (L : gset handle) (n : handle) : Py unit := fun s =>
(Return tt,
 {| snowflake_conn := snowflake_conn s; duckdb_conn := duckdb_conn s;
    sf_live := sf_live s; duck_live := L; next_handle := n;
    tables := tables s; views := views s; trace := trace s |}).

Definition set_tables (T : gmap string DataFrame) : Py unit := fun s =>
(Return tt,
 {| snowflake_conn := snowflake_conn s; duckdb_conn := duckdb_conn s;
    sf_live := sf_live s; duck_live := duck_live s; next_handle := next_handle s;
    tables := T; views := views s; trace := trace s |}).

Definition set_views (V : gmap string DataFrame) : Py unit := fun s =>
(Return tt,
 {| snowflake_conn := snowflake_conn s; duckdb_conn := duckdb_conn s;
    sf_live := sf_live s; duck_live := duck_live s; next_handle := next_handle s;
    tables := tables s; views := V; trace := trace s |}).

(** [logger.info], [logger.warning], [logger.error] *)
Definition log (lv : level) (msg : string) : Py unit := emit (Log lv msg).

(** Session sets. *)
Definition opened (h : handle) (L : gset handle) : gset handle := {[h]} ∪ L.
Definition released (h : handle) (L : gset handle) : gset handle := L ∖ {[h]}.
Definition is_live (h : handle) (L : gset handle) : bool := bool_decide (h ∈ L).

(** ** The drivers *)

Section Pipeline.

Variable env : Env.

(** [snowflake.connector.connect] with the connection parameters *)
Definition sf_connect (insecure_mode : bool) : Py handle :=
  emit (SfConnect insecure_mode);;
  match sf_connect_fault env insecure_mode with
  | Some e => raise e
  | None =>
      h ← get next_handle;
      L ← get sf_live;
      set_sf_live (opened h L) (S h);;
      mret h
  end.

(** [duckdb.connect(path, read_only=False)] *)
Definition duck_connect (path : string) : Py handle :=
  emit (DuckConnect path);;
  match duck_connect_fault env with
  | Some e => raise e
  | None =>
      h ← get next_handle;
      L ← get duck_live;
      set_duck_live (opened h L) (S h);;
      mret h
  end.

Definition closed_session : exn := Exn "Error" "Connection is closed".

(** [cursor = conn.cursor(); cursor.execute(text); cursor.fetchall()] *)
Definition sf_show_tables (h : handle) (text : string) : Py (list (list string)) :=
  L ← get sf_live;
  if is_live h L then
    emit (SfShow text);;
    match sf_show env text with
    | inl e => raise e
    | inr rows => mret rows
    end
  else raise closed_session.

(** [cursor = conn.cursor(DictCursor); cursor.execute(text); cursor.fetchall()] *)
Definition sf_fetch (h : handle) (text : string) : Py Fetched :=
  L ← get sf_live;
  if is_live h L then
    emit (SfQuery text);;
    match sf_query env text with
    | inl e => raise e
    | inr r => mret r
    end
  else raise closed_session.

(** [conn.close()] on the warehouse session: the session is released; the
    driver may still report a secondary error. *)
Definition sf_close (h : handle) : Py unit :=
  emit (SfClose h);;
  L ← get sf_live;
  n ← get next_handle;
  set_sf_live (released h L) n;;
  match sf_close_fault env with
  | Some e => raise e
  | None => mret tt
  end.

Definition duck_close (h : handle) : Py unit :=
  emit (DuckClose h);;
  L ← get duck_live;
  n ← get next_handle;
  set_duck_live (released h L) n;;
  match duck_close_fault env with
  | Some e => raise e
  | None => mret tt
  end.

Definition catalog_error (msg name : string) : exn :=
  Exn "CatalogException" ("Table with name " +:+ name +:+ msg).

(** [conn.execute(sql q)]; the answer is the first cell of the first row
    of the result, when the statement has one. The engine either rejects
    the statement text or carries the statement out.

    The catalog records a table under the name the statement carries and as
    the frame it was created from. This is the engine on names it reads as
    one identifier, told apart up to letter case, and up to the column
    types it infers for the stored rows: the engine reads any other name as
    SQL text, finds a table under any spelling of its letters, and may
    re-type the cells of a column. That a table is there and how many rows
    it has depend on neither; statements about other tables are made for
    identifiers only, and statements about what a table holds are made
    through its number of rows. *)
Definition duck_execute (h : handle) (q : stmt) : Py (option Z) :=
  L ← get duck_live;
  if is_live h L then
    emit (DuckExecute (sql q));;
    match duck_fault env (sql q) with
    | Some e => raise e
    | None =>
        T ← get tables;
        V ← get views;
        match q with
        | DropTableIfExists n => set_tables (delete n T);; mret None
        | CreateTableAsSelect n src =>
            match T !! n with
            | Some _ => raise (catalog_error " already exists!" n)
            | None =>
                match V !! src with
                | Some df => set_tables (<[n:=df]> T);; mret None
                | None =>
                    match T !! src with
                    | Some df => set_tables (<[n:=df]> T);; mret None
                    | None => raise (catalog_error " does not exist!" src)
                    end
                end
            end
        | SelectCount n =>
            match T !! n with
            | Some df => mret (Some (Z.of_nat (df_len df)))
            | None => raise (catalog_error " does not exist!" n)
            end
        end
    end
  else raise closed_session.

(** [conn.register(name, df)] and [conn.unregister(name)] *)
Definition duck_register (h : handle) (name : string) (df : DataFrame) : Py unit :=
  L ← get duck_live;
  if is_live h L then
    emit (DuckRegister name);;
    V ← get views;
    set_views (<[name:=df]> V)
  else raise closed_session.

Definition duck_unregister (h : handle) (name : string) : Py unit :=
  L ← get duck_live;
  if is_live h L then
    emit (DuckUnregister name);;
    V ← get views;
    set_views (delete name V)
  else raise closed_session.

(** ** [DataPipeline] *)

(** [connect_snowflake] *)
Definition connect_snowflake : Py bool :=
  try_except
    (try_except
       (h ← sf_connect false;
        set_snowflake_conn h;;
        log INFO "Successfully connected to Snowflake with SSL verification";;
        mret true)
       (fun ssl_error =>
          log WARNING ("SSL connection failed: " +:+ str ssl_error);;
          log INFO "Attempting connection with relaxed SSL settings...";;
          h ← sf_connect true;
          set_snowflake_conn h;;
          log INFO "Successfully connected to Snowflake with insecure mode";;
          mret true))
    (fun e =>
       log ERROR ("Failed to connect to Snowflake: " +:+ str e);;
       mret false).

(** [connect_duckdb] *)
Definition connect_duckdb : Py bool :=
  try_except
    (h ← duck_connect DUCKDB_PATH;
     set_duckdb_conn h;;
     log INFO ("Successfully connected to DuckDB: " +:+ DUCKDB_PATH);;
     mret true)
    (fun e =>
       log ERROR ("Failed to connect to DuckDB: " +:+ str e);;
       mret false).

(** [[row[1] for row in rows]]; [None] stands for the [IndexError] of a
    row with fewer than two fields *)
Fixpoint second_fields (rows : list (list string)) : option (list string) :=
  match rows with
  | [] => Some []
  | row :: rest =>
      match row !! 1%nat with
      | Some name =>
          match second_fields rest with
          | Some names => Some (name :: names)
          | None => None
          end
      | None => None
      end
  end.

(** [get_snowflake_tables] *)
Definition get_snowflake_tables : Py (list string) :=
  try_except
    (c ← get snowflake_conn;
     match c with
     | None => raise (Exception "Snowflake connection not established")
     | Some h =>
         rows ← sf_show_tables h
           ("SHOW TABLES IN SCHEMA " +:+ SNOWFLAKE_DATABASE env +:+ "." +:+ SNOWFLAKE_SCHEMA env);
         match second_fields rows with
         | None => raise (Exn "IndexError" "tuple index out of range")
         | Some names =>
             log INFO ("Found " +:+ pretty (length names) +:+ " tables in Snowflake");;
             mret names
         end
     end)
    (fun e =>
       log ERROR ("Failed to get table list: " +:+ str e);;
       mret []).

(** Lines 90-91 of [read_snowflake_data]: the text handed to the cursor *)
Definition limited_query (query : string) (limit : Z) : string :=
  if negb (PyStr.contains "LIMIT" (PyStr.upper query))
  then PyStr.rstrip ";" query +:+ " LIMIT " +:+ pretty limit
  else query.

(** [read_snowflake_data] *)
Definition read_snowflake_data (query : string) (limit : Z) : Py (option DataFrame) :=
  try_except
    (c ← get snowflake_conn;
     match c with
     | None => raise (Exception "Snowflake connection not established")
     | Some h =>
         let query := limited_query query limit in
         log INFO ("Executing query: " +:+ PyStr.slice_to 100 query +:+ "...");;
         results ← sf_fetch h query;
         match f_rows results with
         | [] =>
             log WARNING "Query returned no results";;
             mret (Some DataFrame_new)
         | _ :: _ =>
             let df := DataFrame_of results in
             log INFO ("Successfully read " +:+ pretty (df_len df) +:+ " rows with "
                       +:+ pretty (df_width df) +:+ " columns from Snowflake");;
             mret (Some df)
         end
     end)
    (fun e =>
       log ERROR ("Failed to read from Snowflake: " +:+ str e);;
       raise e).

(** Line 128 of [write_to_duckdb] *)
Definition clean_table_name (table_name : string) : string :=
  PyStr.replace "." "_" (PyStr.replace " " "_" (PyStr.replace "-" "_" table_name)).

(** [write_to_duckdb] *)
Definition write_to_duckdb (df : DataFrame) (table_name : string) : Py bool :=
  try_except
    (c ← get duckdb_conn;
     match c with
     | None => raise (Exception "DuckDB connection not established")
     | Some h =>
         if df_empty df then
           log WARNING "DataFrame is empty, skipping write";;
           mret false
         else
           let clean := clean_table_name table_name in
           duck_execute h (DropTableIfExists clean);;
           duck_register h (clean +:+ "_temp") df;;
           duck_execute h (CreateTableAsSelect clean (clean +:+ "_temp"));;
           duck_unregister h (clean +:+ "_temp");;
           r ← duck_execute h (SelectCount clean);
           match r with
           | None => raise (Exn "TypeError" "'NoneType' object is not subscriptable")
           | Some count =>
               log INFO ("Successfully wrote " +:+ pretty count
                         +:+ " rows to DuckDB table: " +:+ clean);;
               mret true
           end
     end)
    (fun e =>
       log ERROR ("Failed to write to DuckDB: " +:+ str e);;
       raise e).

(** [cleanup] *)
Definition cleanup : Py unit :=
  c ← get snowflake_conn;
  match c with
  | Some h =>
      try_except (sf_close h;; log INFO "Snowflake connection closed")
                 (fun _ => mret tt)
  | None => mret tt
  end;;
  d ← get duckdb_conn;
  match d with
  | Some h =>
      try_except (duck_close h;; log INFO "DuckDB connection closed")
                 (fun _ => mret tt)
  | None => mret tt
  end.

(** Lines 160-176 of [run_pipeline]: what to query and the local name *)
Definition resolve_target (table_name custom_query : option string) : Py (string * string) :=
  if PyStr.truthy custom_query then
    mret (default "" custom_query, "custom_query_result")
  else if PyStr.truthy table_name then
    let t := default "" table_name in
    mret ("SELECT * FROM " +:+ t, PyStr.lower t)
  else
    names ← get_snowflake_tables;
    match names with
    | [] => raise (Exception "No tables found in Snowflake schema")
    | t :: _ =>
        log INFO ("Using first available table: " +:+ t);;
        mret ("SELECT * FROM " +:+ t, PyStr.lower t)
    end.

(** The [try] block of [run_pipeline] *)
Definition run_stages (table_name custom_query : option string) (limit : Z)
  : Py (option DataFrame) :=
  log INFO "=== Starting Data Pipeline ===";;
  connected ← connect_snowflake;
  if negb connected then raise (Exception "Could not connect to Snowflake") else
  connected ← connect_duckdb;
  if negb connected then raise (Exception "Could not connect to DuckDB") else
  '(query, duckdb_table_name) ← resolve_target table_name custom_query;
  log INFO "Starting data extraction from Snowflake...";;
  df ← read_snowflake_data query limit;
  match df with
  | None =>
      log WARNING "No data retrieved from Snowflake";;
      mret None
  | Some d =>
      if df_empty d then
        log WARNING "No data retrieved from Snowflake";;
        mret None
      else
        log INFO "Starting data load to DuckDB...";;
        success ← write_to_duckdb d duckdb_table_name;
        if (success : bool) then
          log INFO "=== Pipeline completed successfully! ===";;
          mret (Some d)
        else raise (Exception "Failed to write data to DuckDB")
  end.

(** [run_pipeline] *)
Definition run_pipeline (table_name custom_query : option string) (limit : Z)
  : Py (option DataFrame) :=
  try_finally
    (try_except
       (run_stages table_name custom_query limit)
       (fun e =>
          log ERROR ("Pipeline failed: " +:+ str e);;
          raise e))
    cleanup.

End Pipeline.

Definition default_limit : Z := 1000.

(** ** Reasoning support *)

Arguments is_live : simpl never.
Arguments opened : simpl never.
Arguments released : simpl never.
Arguments pretty {_ _} _ : simpl never.
Arguments limited_query : simpl never.
Arguments clean_table_name : simpl never.
Arguments PyStr.slice_to : simpl never.
Arguments PyStr.lower : simpl never.

(** [amend s T V evs]: the state [s] with the catalog [T], the staging
    bindings [V] and [evs] appended to the trace; sessions are untouched. *)
Definition amend (s : State) (T V : gmap string DataFrame) (evs : list event) : State :=
  {| snowflake_conn := snowflake_conn s; duckdb_conn := duckdb_conn s;
     sf_live := sf_live s; duck_live := duck_live s; next_handle := next_handle s;
     tables := T; views := V; trace := trace s ++ evs |}.

Definition log_to (s : State) (evs : list event) : State :=
  amend s (tables s) (views s) evs.

(** The query texts handed to the warehouse cursor, in order. *)
Fixpoint sent_queries (evs : list event) : list string :=
  match evs with
  | [] => []
  | SfQuery q :: rest => q :: sent_queries rest
  | _ :: rest => sent_queries rest
  end.

(** The statement texts handed to the local store, in order. *)
Fixpoint store_statements (evs : list event) : list string :=
  match evs with
  | [] => []
  | DuckExecute q :: rest => q :: store_statements rest
  | _ :: rest => store_statements rest
  end.

(** The warnings logged, in order. *)
Fixpoint warnings (evs : list event) : list string :=
  match evs with
  | [] => []
  | Log WARNING m :: rest => m :: warnings rest
  | _ :: rest => warnings rest
  end.

(** The connection attempts, by [insecure_mode], in order. *)
Fixpoint connect_attempts (evs : list event) : list bool :=
  match evs with
  | [] => []
  | SfConnect b :: rest => b :: connect_attempts rest
  | _ :: rest => connect_attempts rest
  end.

(** Both sessions of the pipeline object are established and open. *)
Definition Ready (s : State) : Prop :=
  exists h h',
    snowflake_conn s = Some h /\ is_live h (sf_live s) = true /\
    duckdb_conn s = Some h' /\ is_live h' (duck_live s) = true.

(** What a successful [write_to_duckdb] leaves in the trace. *)
Definition write_events (df : DataFrame) (clean : string) : list event :=
  [ DuckExecute (sql (DropTableIfExists clean));
    DuckRegister (clean +:+ "_temp");
    DuckExecute (sql (CreateTableAsSelect clean (clean +:+ "_temp")));
    DuckUnregister (clean +:+ "_temp");
    DuckExecute (sql (SelectCount clean));
    Log INFO ("Successfully wrote " +:+ pretty (Z.of_nat (df_len df))
              +:+ " rows to DuckDB table: " +:+ clean) ].


(** What [read_snowflake_data] leaves in the trace before the cursor
    answers. *)
Definition read_prologue (query : string) (limit : Z) : list event :=
  [ Log INFO ("Executing query: " +:+ PyStr.slice_to 100 (limited_query query limit) +:+ "...");
    SfQuery (limited_query query limit) ].

(** ** The specification's reading of "explicit row-limiting clause"

    The query has an explicit row-limiting clause when the keyword LIMIT
    occurs in it as a word of its own, in any letter case. *)

Definition is_word_char (c : ascii) : bool :=
  let n := nat_of_ascii c in
  ((48 <=? n)%nat && (n <=? 57)%nat) || ((65 <=? n)%nat && (n <=? 90)%nat)
  || ((97 <=? n)%nat && (n <=? 122)%nat) || (n =? 95)%nat.

Fixpoint words_from (cur : string) (s : string) : list string :=
  match s with
  | EmptyString => [cur]
  | String c s' =>
      if is_word_char c then words_from (cur +:+ String c EmptyString) s'
      else cur :: words_from EmptyString s'
  end.

Definition has_limit_clause (query : string) : bool :=
  existsb (String.eqb "LIMIT") (words_from EmptyString (PyStr.upper query)).

(** ** A concrete warehouse *)

Definition orders : Fetched :=
  {| f_columns := ["ID"; "AMT"];
     f_rows := [[VInt 1; VInt 10]; [VInt 2; VInt 20]; [VInt 3; VInt 30]] |}.

Definition one_order : Fetched :=
  {| f_columns := ["ID"; "AMT"]; f_rows := [[VInt 1; VInt 10]] |}.

Definition no_rows : Fetched := {| f_columns := ["ID"; "AMT"]; f_rows := [] |}.

Definition sql_error : exn := Exn "ProgrammingError" "SQL compilation error".

(** Table ORDERS with three rows, an empty table ARCHIVE; every driver call
    goes through. *)
Definition warehouse : Env :=
  {| SNOWFLAKE_DATABASE := "DEMO_DB";
     SNOWFLAKE_SCHEMA := "PUBLIC";
     sf_connect_fault := fun _ => None;
     sf_show := fun _ => inr [["2024-01-01"; "ORDERS"; "DEMO_DB"];
                              ["2024-01-02"; "ARCHIVE"; "DEMO_DB"]];
     sf_query := fun q =>
       if String.eqb q "SELECT * FROM ORDERS LIMIT 1000" then inr orders
       else if String.eqb q "SELECT * FROM ARCHIVE LIMIT 1000" then inr no_rows
       else inl sql_error;
     sf_close_fault := None;
     duck_connect_fault := None;
     duck_fault := fun _ => None;
     duck_close_fault := None |}.

(** A pipeline object whose two sessions are open, on an empty store. *)
Definition connected : State :=
  {| snowflake_conn := Some 0%nat; duckdb_conn := Some 1%nat;
     sf_live := {[0%nat]}; duck_live := {[1%nat]}; next_handle := 2;
     tables := ∅; views := ∅; trace := [] |}.

(** ** Descriptions of the stages, used in the statements below *)

(** The state after a warehouse session is opened and stored in the object. *)
Definition with_remote (s : State) (evs : list event) : State :=
  {| snowflake_conn := Some (next_handle s); duckdb_conn := duckdb_conn s;
     sf_live := opened (next_handle s) (sf_live s); duck_live := duck_live s;
     next_handle := S (next_handle s);
     tables := tables s; views := views s; trace := trace s ++ evs |}.

(** The state after a local session is opened and stored in the object. *)
Definition with_local (s : State) (evs : list event) : State :=
  {| snowflake_conn := snowflake_conn s; duckdb_conn := Some (next_handle s);
     sf_live := sf_live s; duck_live := opened (next_handle s) (duck_live s);
     next_handle := S (next_handle s);
     tables := tables s; views := views s; trace := trace s ++ evs |}.

(** One of the two connection modes of the warehouse goes through. *)
Definition remote_available (env : Env) : bool :=
  match sf_connect_fault env false, sf_connect_fault env true with
  | Some _, Some _ => false
  | _, _ => true
  end.

(** What [connect_snowflake] leaves in the trace. *)
Definition connect_events (env : Env) : list event :=
  match sf_connect_fault env false with
  | None =>
      [ SfConnect false;
        Log INFO "Successfully connected to Snowflake with SSL verification" ]
  | Some e1 =>
      [ SfConnect false;
        Log WARNING ("SSL connection failed: " +:+ str e1);
        Log INFO "Attempting connection with relaxed SSL settings...";
        SfConnect true;
        match sf_connect_fault env true with
        | None => Log INFO "Successfully connected to Snowflake with insecure mode"
        | Some e2 => Log ERROR ("Failed to connect to Snowflake: " +:+ str e2)
        end ]
  end.

(** The same environment, with a warehouse whose strict-verification
    connection goes through. *)
Definition trusted (env : Env) : Env :=
  {| SNOWFLAKE_DATABASE := SNOWFLAKE_DATABASE env;
     SNOWFLAKE_SCHEMA := SNOWFLAKE_SCHEMA env;
     sf_connect_fault := fun insecure_mode =>
       if insecure_mode then sf_connect_fault env true else None;
     sf_show := sf_show env;
     sf_query := sf_query env;
     sf_close_fault := sf_close_fault env;
     duck_connect_fault := duck_connect_fault env;
     duck_fault := duck_fault env;
     duck_close_fault := duck_close_fault env |}.

(** The discovery statement of [get_snowflake_tables]. *)
Definition show_tables_text (env : Env) : string :=
  "SHOW TABLES IN SCHEMA " +:+ SNOWFLAKE_DATABASE env +:+ "." +:+ SNOWFLAKE_SCHEMA env.

(** What [get_snowflake_tables] returns on an open session. *)
Definition discovered (env : Env) : list string :=
  match sf_show env (show_tables_text env) with
  | inl _ => []
  | inr rows => default [] (second_fields rows)
  end.

(** What [get_snowflake_tables] leaves in the trace on an open session. *)
Definition discovery_events (env : Env) : list event :=
  [ SfShow (show_tables_text env);
    match sf_show env (show_tables_text env) with
    | inl e => Log ERROR ("Failed to get table list: " +:+ str e)
    | inr rows =>
        match second_fields rows with
        | None => Log ERROR ("Failed to get table list: " +:+ "tuple index out of range")
        | Some names =>
            Log INFO ("Found " +:+ pretty (length names) +:+ " tables in Snowflake")
        end
    end ].

(** The stages of [run_pipeline] that follow the two connections. *)
Definition load_stages (env : Env) (table_name custom_query : option string) (limit : Z)
  : Py (option DataFrame) :=
  '(query, duckdb_table_name) ← resolve_target env table_name custom_query;
  log INFO "Starting data extraction from Snowflake...";;
  df ← read_snowflake_data env query limit;
  match df with
  | None =>
      log WARNING "No data retrieved from Snowflake";;
      mret None
  | Some d =>
      if df_empty d then
        log WARNING "No data retrieved from Snowflake";;
        mret None
      else
        log INFO "Starting data load to DuckDB...";;
        success ← write_to_duckdb env d duckdb_table_name;
        if (success : bool) then
          log INFO "=== Pipeline completed successfully! ===";;
          mret (Some d)
        else raise (Exception "Failed to write data to DuckDB")
  end.

Arguments get_snowflake_tables : simpl never.
Arguments read_snowflake_data : simpl never.
Arguments write_to_duckdb : simpl never.
Arguments connect_snowflake : simpl never.
Arguments connect_duckdb : simpl never.
Arguments resolve_target : simpl never.
Arguments cleanup : simpl never.
Arguments load_stages : simpl never.
Arguments run_stages : simpl never.
Arguments show_tables_text : simpl never.
Arguments discovery_events : simpl never.
Arguments connect_events : simpl never.

(** ** The pipeline as a function of the environment

    What each stage answers on a pipeline object whose sessions are open,
    written without the state; the lemmas of the next part show that the
    stages compute exactly these. *)

(** TableResolver: the query and the local target name, or nothing when the
    discovery finds no table. *)
Definition target (env : Env) (table_name custom_query : option string)
  : option (string * string) :=
  if PyStr.truthy custom_query then Some (default "" custom_query, "custom_query_result")
  else if PyStr.truthy table_name then
    Some ("SELECT * FROM " +:+ default "" table_name, PyStr.lower (default "" table_name))
  else
    match discovered env with
    | [] => None
    | t :: _ => Some ("SELECT * FROM " +:+ t, PyStr.lower t)
    end.

Definition no_tables_found : exn := Exception "No tables found in Snowflake schema".

(** Extractor: what [read_snowflake_data] answers. *)
Definition extracted (env : Env) (query : string) (limit : Z) : outcome (option DataFrame) :=
  match sf_query env (limited_query query limit) with
  | inl e => Raise e
  | inr res =>
      match f_rows res with
      | [] => Return (Some DataFrame_new)
      | _ :: _ => Return (Some (DataFrame_of res))
      end
  end.

(** Loader: what [write_to_duckdb] answers for a non-empty result set, and
    what it does to the catalog. *)
Definition written (env : Env) (df : DataFrame) (table_name : string)
  : outcome bool * (gmap string DataFrame -> gmap string DataFrame) :=
  let clean := clean_table_name table_name in
  match duck_fault env (sql (DropTableIfExists clean)) with
  | Some e => (Raise e, fun T => T)
  | None =>
      match duck_fault env (sql (CreateTableAsSelect clean (clean +:+ "_temp"))) with
      | Some e => (Raise e, fun T => delete clean T)
      | None =>
          match duck_fault env (sql (SelectCount clean)) with
          | Some e => (Raise e, fun T => <[clean := df]> (delete clean T))
          | None => (Return true, fun T => <[clean := df]> (delete clean T))
          end
      end
  end.

(** The stages after the connections: outcome and effect on the catalog. *)
Definition load_result (env : Env) (table_name custom_query : option string) (limit : Z)
  : outcome (option DataFrame) * (gmap string DataFrame -> gmap string DataFrame) :=
  match target env table_name custom_query with
  | None => (Raise no_tables_found, fun T => T)
  | Some (query, duckdb_table_name) =>
      match extracted env query limit with
      | Raise e => (Raise e, fun T => T)
      | Return None => (Return None, fun T => T)
      | Return (Some d) =>
          if df_empty d then (Return None, fun T => T)
          else
            match written env d duckdb_table_name with
            | (Return true, f) => (Return (Some d), f)
            | (Return false, f) => (Raise (Exception "Failed to write data to DuckDB"), f)
            | (Raise e, f) => (Raise e, f)
            end
      end
  end.

(** The queries the stages after the connections send to the warehouse. *)
Definition load_queries (env : Env) (table_name custom_query : option string) (limit : Z)
  : list string :=
  match target env table_name custom_query with
  | None => []
  | Some (query, _) => [limited_query query limit]
  end.

(** The whole run: outcome and effect on the catalog. *)
Definition run_result (env : Env) (table_name custom_query : option string) (limit : Z)
  : outcome (option DataFrame) * (gmap string DataFrame -> gmap string DataFrame) :=
  if remote_available env then
    match duck_connect_fault env with
    | None => load_result env table_name custom_query limit
    | Some _ => (Raise (Exception "Could not connect to DuckDB"), fun T => T)
    end
  else (Raise (Exception "Could not connect to Snowflake"), fun T => T).

Definition run_queries (env : Env) (table_name custom_query : option string) (limit : Z)
  : list string :=
  if remote_available env then
    match duck_connect_fault env with
    | None => load_queries env table_name custom_query limit
    | Some _ => []
    end
  else [].

(** ** Sessions *)

(** The session a field of the pipeline object refers to. *)
Definition held (c : option handle) : gset handle :=
  match c with
  | Some h => {[h]}
  | None => ∅
  end.

(** Every session opened since [s0] is one the pipeline object holds. *)
Definition owns (s0 s : State) : Prop :=
  sf_live s ⊆ sf_live s0 ∪ held (snowflake_conn s) /\
  duck_live s ⊆ duck_live s0 ∪ held (duckdb_conn s).

(** No session opened since [s0] is open, and the sessions the pipeline
    object refers to are closed. *)
Definition all_released (s0 s : State) : Prop :=
  sf_live s ⊆ sf_live s0 /\ duck_live s ⊆ duck_live s0 /\
  (forall h, snowflake_conn s = Some h -> h ∉ sf_live s) /\
  (forall h, duckdb_conn s = Some h -> h ∉ duck_live s).

(** The first line of the log of a run. *)
Definition run_banner : event := Log INFO "=== Starting Data Pipeline ===".

(** ** Further concrete warehouses *)

Definition network_down : exn :=
  Exn "OperationalError" "250001: Could not connect to Snowflake backend".

Definition ssl_error : exn :=
  Exn "SSLError" "certificate verify failed".

(** The same warehouse, out of reach in both connection modes. *)
Definition unreachable : Env :=
  {| SNOWFLAKE_DATABASE := "DEMO_DB"; SNOWFLAKE_SCHEMA := "PUBLIC";
     sf_connect_fault := fun _ => Some network_down;
     sf_show := sf_show warehouse; sf_query := sf_query warehouse;
     sf_close_fault := None; duck_connect_fault := None;
     duck_fault := fun _ => None; duck_close_fault := None |}.

(** The same warehouse behind a broken trust store: only the relaxed mode
    connects. *)
Definition untrusted : Env :=
  {| SNOWFLAKE_DATABASE := "DEMO_DB"; SNOWFLAKE_SCHEMA := "PUBLIC";
     sf_connect_fault := fun insecure_mode => if insecure_mode then None else Some ssl_error;
     sf_show := sf_show warehouse; sf_query := sf_query warehouse;
     sf_close_fault := None; duck_connect_fault := None;
     duck_fault := fun _ => None; duck_close_fault := None |}.

(** The same warehouse, with the discovery statement refused. *)
Definition no_grants : Env :=
  {| SNOWFLAKE_DATABASE := "DEMO_DB"; SNOWFLAKE_SCHEMA := "PUBLIC";
     sf_connect_fault := fun _ => None;
     sf_show := fun _ => inl sql_error; sf_query := sf_query warehouse;
     sf_close_fault := None; duck_connect_fault := None;
     duck_fault := fun _ => None; duck_close_fault := None |}.

(** A warehouse whose schema has no table. *)
Definition empty_schema : Env :=
  {| SNOWFLAKE_DATABASE := "DEMO_DB"; SNOWFLAKE_SCHEMA := "PUBLIC";
     sf_connect_fault := fun _ => None;
     sf_show := fun _ => inr []; sf_query := sf_query warehouse;
     sf_close_fault := None; duck_connect_fault := None;
     duck_fault := fun _ => None; duck_close_fault := None |}.

(** * The rest of the code

    Definitions for the parts of the repository beyond the pipeline's
    contract: helpers for the statements about strings, the dashboard's
    functions of [streamlit_app.py], the configuration of [config.py] and
    the connection test of [test_connection.py]. *)

(** [c * n] *)
Fixpoint repeat_char (c : ascii) (n : nat) : string :=
  match n with
  | O => EmptyString
  | S n' => String c (repeat_char c n')
  end.

(** The character [clean_table_name] puts in the place of [c]. *)
Definition sanitized_char (c : ascii) : ascii :=
  if Ascii.eqb c "-" || Ascii.eqb c " " || Ascii.eqb c "." then "_"%char else c.

(** The names the store reads as one unquoted identifier: a letter or an
    underscore, followed by letters, digits and underscores. The loader
    pastes the sanitized name into its statements as it is, so any other
    text is read by the store as SQL of its own. The store compares
    identifiers without regard to letter case. *)
Definition identifier_start (c : ascii) : bool :=
  let n := nat_of_ascii c in
  ((65 <=? n)%nat && (n <=? 90)%nat) || ((97 <=? n)%nat && (n <=? 122)%nat) || (n =? 95)%nat.

Definition identifier_char (c : ascii) : bool :=
  let n := nat_of_ascii c in
  identifier_start c || ((48 <=? n)%nat && (n <=? 57)%nat).

Fixpoint all_chars (p : ascii -> bool) (s : string) : bool :=
  match s with
  | EmptyString => true
  | String c s' => p c && all_chars p s'
  end.

Definition plain_identifier (t : string) : bool :=
  match t with
  | EmptyString => false
  | String c r => identifier_start c && all_chars identifier_char r
  end.

(** [COUNT] re-read on table [name] through session [h], in state [s]. *)
Definition recount (env : Env) (h : handle) (name : string) (s : State) : outcome (option Z) :=
  fst (duck_execute env h (SelectCount name) s).

(** A store that rejects every CREATE statement on table [orders]. *)
Definition read_only_store : Env :=
  {| SNOWFLAKE_DATABASE := "DEMO_DB"; SNOWFLAKE_SCHEMA := "PUBLIC";
     sf_connect_fault := fun _ => None;
     sf_show := sf_show warehouse; sf_query := sf_query warehouse;
     sf_close_fault := None; duck_connect_fault := None;
     duck_fault := fun text =>
       if String.eqb text "CREATE TABLE orders AS SELECT * FROM orders_temp"
       then Some (Exn "IOException" "Cannot write: disk full") else None;
     duck_close_fault := None |}.

(** The connected pipeline object on a store that holds a table [orders]. *)
Definition loaded : State :=
  {| snowflake_conn := Some 0%nat; duckdb_conn := Some 1%nat;
     sf_live := {[0%nat]}; duck_live := {[1%nat]}; next_handle := 2;
     tables := {[ "orders" := DataFrame_of one_order ]}; views := ∅; trace := [] |}.

(** The statements [write_to_duckdb] sends for the sanitized name [clean]. *)
Definition loader_statements (clean : string) : list stmt :=
  [ DropTableIfExists clean;
    CreateTableAsSelect clean (clean +:+ "_temp");
    SelectCount clean ].

(** ** [streamlit_app.py] *)

(** What the dashboard puts on the page, in order. *)
Inductive ui_event :=
| StProgress (percent : Z)
| StEmpty
| StText (text : string)
| StSuccess (text : string)
| StWarning (text : string)
| StError (text : string)
| StExpander (label : string)
| StWrite (text : string).

Definition required_vars : list string :=
  ["SNOWFLAKE_ACCOUNT"; "SNOWFLAKE_USER"; "SNOWFLAKE_PASSWORD"].

(** [check_environment]; [environ] is the process environment
    ([os.getenv]) and [dotenv_exists] is [os.path.exists('.env')]. A
    variable that is unset or empty is false for [if not os.getenv(var)]. *)
Definition check_environment (environ : gmap string string) (dotenv_exists : bool)
  : bool * list string :=
  let issues :=
    fold_left
      (fun issues var =>
         if negb (PyStr.truthy (environ !! var))
         then issues ++ ["Missing environment variable: " +:+ var]
         else issues)
      required_vars [] in
  let issues :=
    if negb dotenv_exists
    then issues ++ ["Missing .env file in project directory"]
    else issues in
  ((length issues =? 0)%nat, issues).

(** [DataPipeline()]: a pipeline object with no session. *)
Definition new_pipeline (s : State) : State :=
  {| snowflake_conn := None; duckdb_conn := None;
     sf_live := sf_live s; duck_live := duck_live s; next_handle := next_handle s;
     tables := tables s; views := views s; trace := trace s |}.

Definition troubleshooting_tips : list ui_event :=
  [ StExpander "🔧 Troubleshooting Tips";
    StWrite "**Common Issues:**";
    StWrite "1. **SSL Errors**: Usually resolved automatically with fallback connection";
    StWrite "2. **Authentication**: Check your Snowflake credentials in .env file";
    StWrite "3. **Table Access**: Ensure your user has access to the specified table/schema";
    StWrite "4. **Network**: Check if you can access Snowflake from your network" ].

(** [run_data_pipeline]: the flag returned and what is shown. *)
Definition run_data_pipeline (env : Env) (table_name : option string) (limit : Z)
  (s : State) : (bool * list ui_event) * State :=
  let shown :=
    [ StProgress 0; StEmpty; StText "Connecting to Snowflake..."; StProgress 20 ] in
  match run_pipeline env table_name None limit (new_pipeline s) with
  | (Return df, s') =>
      let shown := shown ++ [ StProgress 100; StText "Pipeline completed successfully!" ] in
      match df with
      | Some d =>
          ((true,
            shown ++ [ StSuccess ("✅ Successfully processed " +:+ pretty (df_len d)
                                  +:+ " rows!") ]), s')
      | None =>
          ((false,
            shown ++ [ StWarning "⚠️ Pipeline completed but no data was processed" ]), s')
      end
  | (Raise e, s') =>
      ((false, shown ++ StError ("❌ Pipeline failed: " +:+ str e) :: troubleshooting_tips), s')
  end.

(** What [load_data_from_duckdb] returns: the preview, the table names and
    the row count of each table. *)
Definition dashboard_data : Type := option DataFrame * list string * gmap string Z.

Definition no_data : dashboard_data := (None, [], ∅).

Definition list_tables_text : string :=
  "SELECT table_name FROM information_schema.tables WHERE table_schema = 'main'".

Definition preview_text (table : string) : string :=
  "SELECT * FROM " +:+ table +:+ " LIMIT 1000".

Section Dashboard.

Variable env : Env.

(** The order in which the store lists the tables of a catalog. *)
Variable listing : gmap string DataFrame -> list string.

(** [conn.execute(list_tables_text).fetchdf()['table_name'].tolist()] *)
Definition duck_list_tables (h : handle) : Py (list string) :=
  L ← get duck_live;
  if is_live h L then
    emit (DuckExecute list_tables_text);;
    match duck_fault env list_tables_text with
    | Some e => raise e
    | None => T ← get tables; mret (listing T)
    end
  else raise closed_session.

(** [conn.execute(preview_text table).fetchdf()] *)
Definition duck_preview (h : handle) (table : string) : Py DataFrame :=
  L ← get duck_live;
  if is_live h L then
    emit (DuckExecute (preview_text table));;
    match duck_fault env (preview_text table) with
    | Some e => raise e
    | None =>
        T ← get tables;
        match T !! table with
        | Some df => mret {| df_columns := df_columns df; df_rows := take 1000 (df_rows df) |}
        | None => raise (catalog_error " does not exist!" table)
        end
    end
  else raise closed_session.

(** The loop of lines 55-60: the row count of each table, 0 for a table
    whose count fails. *)
Fixpoint count_tables (h : handle) (table_names : list string) (table_stats : gmap string Z)
  : Py (gmap string Z) :=
  match table_names with
  | [] => mret table_stats
  | table :: rest =>
      table_stats ←
        try_except
          (r ← duck_execute env h (SelectCount table);
           match r with
           | Some count => mret (<[table := count]> table_stats)
           | None => raise (Exn "TypeError" "'NoneType' object is not subscriptable")
           end)
          (fun _ => mret (<[table := 0%Z]> table_stats));
      count_tables h rest table_stats
  end.

(** [load_data_from_duckdb]; [store_file_exists] is
    [os.path.exists(Config.DUCKDB_PATH)]. The session is opened by
    [duckdb.connect(Config.DUCKDB_PATH, read_only=True)]; whether the store
    can be opened is the environment's [duck_connect_fault], as for the
    pipeline. The text assigned to [tables_query] (lines 36-41) is never
    executed. *)
Definition load_data_from_duckdb (store_file_exists : bool)
  : Py (dashboard_data * list ui_event) :=
  try_except
    (if negb store_file_exists then mret (no_data, [])
     else
       conn ← duck_connect env DUCKDB_PATH;
       try_except
         (table_names ← duck_list_tables conn;
          match table_names with
          | [] =>
              duck_close env conn;;
              mret (no_data, [])
          | first_table :: _ =>
              table_stats ← count_tables conn table_names ∅;
              data_df ← duck_preview conn first_table;
              duck_close env conn;;
              mret ((Some data_df, table_names, table_stats), [])
          end)
         (fun e =>
            duck_close env conn;;
            mret (no_data, [StError ("Error querying DuckDB: " +:+ str e)])))
    (fun e => mret (no_data, [StError ("Error connecting to DuckDB: " +:+ str e)])).

End Dashboard.

(** ** [test_connection.py] *)

Section Connection_test.

Variable env : Env.

Definition version_text : string := "SELECT CURRENT_VERSION()".

(** [cursor.fetchone()[0]] on the rows the cursor holds *)
Definition first_field (rows : list (list string)) : Py string :=
  match rows with
  | [] => raise (Exn "TypeError" "'NoneType' object is not subscriptable")
  | [] :: _ => raise (Exn "IndexError" "tuple index out of range")
  | (v :: _) :: _ => mret v
  end.

(** The loop of lines 34-35: one line per table; it stops with an
    [IndexError] at a row without a second field, the lines of the rows
    before it printed. *)
Fixpoint print_tables (rows : list (list string)) (printed : list string)
  : list string * option exn :=
  match rows with
  | [] => (printed, None)
  | table :: rest =>
      match table !! 1%nat with
      | Some name => print_tables rest (printed ++ ["  - " +:+ name])
      | None => (printed, Some (Exn "IndexError" "tuple index out of range"))
      end
  end.

(** [test_snowflake_connection]: the flag returned and the lines printed.
    The database and the schema of the discovery statement are read from
    the environment with the defaults of [config.py], as those of [env]. *)
Definition test_snowflake_connection : Py (bool * list string) :=
  fun s =>
    let start := ["Testing Snowflake connection..."] in
    let failed (printed : list string) (e : exn) (s' : State) :=
      (Return (false, printed ++ ["❌ Connection failed: " +:+ str e]), s') in
    match sf_connect env true s with
    | (Raise e, s1) => failed start e s1
    | (Return conn, s1) =>
        match (rows ← sf_show_tables env conn version_text;
               first_field rows) s1 with
        | (Raise e, s2) => failed start e s2
        | (Return version, s2) =>
            let printed :=
              start ++ [ "✅ Successfully connected to Snowflake!";
                         "📊 Snowflake version: " +:+ version ] in
            match sf_show_tables env conn (show_tables_text env) s2 with
            | (Raise e, s3) => failed printed e s3
            | (Return tables, s3) =>
                let printed :=
                  printed ++ [ "📋 Found " +:+ pretty (length tables)
                               +:+ " tables in schema" ] in
                let '(printed, stopped) :=
                  match tables with
                  | [] => (printed, None)
                  | _ :: _ => print_tables (take 5 tables) (printed ++ ["Available tables:"])
                  end in
                match stopped with
                | Some e => failed printed e s3
                | None =>
                    match sf_close env conn s3 with
                    | (Raise e, s4) => failed printed e s4
                    | (Return _, s4) => (Return (true, printed), s4)
                    end
                end
            end
        end
    end.

End Connection_test.

(** An environment with an empty password and no [.env] file. *)
Definition half_configured : gmap string string :=
  {[ "SNOWFLAKE_ACCOUNT" := "abc12345.us-east-1";
     "SNOWFLAKE_USER" := "loader";
     "SNOWFLAKE_PASSWORD" := "" ]}.

Definition configured : gmap string string :=
  {[ "SNOWFLAKE_ACCOUNT" := "abc12345.us-east-1";
     "SNOWFLAKE_USER" := "loader";
     "SNOWFLAKE_PASSWORD" := "secret" ]}.

(** The row count the dashboard records for [table] on the catalog [T]:
    0 when the count is rejected or the table is not there. *)
Definition table_count (env : Env) (T : gmap string DataFrame) (table : string) : Z :=
  match duck_fault env (sql (SelectCount table)) with
  | Some _ => 0%Z
  | None =>
      match T !! table with
      | Some df => Z.of_nat (df_len df)
      | None => 0%Z
      end
  end.

(** The state after a local session was opened and closed again. *)
Definition visited (s : State) (evs : list event) : State :=
  {| snowflake_conn := snowflake_conn s; duckdb_conn := duckdb_conn s;
     sf_live := sf_live s;
     duck_live := released (next_handle s) (opened (next_handle s) (duck_live s));
     next_handle := S (next_handle s);
     tables := tables s; views := views s; trace := trace s ++ evs |}.

Arguments count_tables : simpl never.
Arguments table_count : simpl never.
Arguments list_tables_text : simpl never.
Arguments preview_text : simpl never.

(** A store that lists its tables by name. *)
Definition by_name (T : gmap string DataFrame) : list string := (map_to_list T).*1.

(** The warehouse of before, with a local store that another process has
    locked. *)
Definition locked_store : Env :=
  {| SNOWFLAKE_DATABASE := "DEMO_DB"; SNOWFLAKE_SCHEMA := "PUBLIC";
     sf_connect_fault := fun _ => None;
     sf_show := sf_show warehouse; sf_query := sf_query warehouse;
     sf_close_fault := None;
     duck_connect_fault := Some (Exn "IOException" "Could not set lock on file");
     duck_fault := fun _ => None; duck_close_fault := None |}.

(** A store that opens but whose catalog cannot be read, and one that
    lists its tables but rejects the preview of table [orders]. *)
Definition no_catalog : Env :=
  {| SNOWFLAKE_DATABASE := "DEMO_DB"; SNOWFLAKE_SCHEMA := "PUBLIC";
     sf_connect_fault := fun _ => None;
     sf_show := sf_show warehouse; sf_query := sf_query warehouse;
     sf_close_fault := None; duck_connect_fault := None;
     duck_fault := fun text =>
       if String.eqb text list_tables_text
       then Some (Exn "IOException" "Could not read the catalog") else None;
     duck_close_fault := None |}.

Definition no_preview : Env :=
  {| SNOWFLAKE_DATABASE := "DEMO_DB"; SNOWFLAKE_SCHEMA := "PUBLIC";
     sf_connect_fault := fun _ => None;
     sf_show := sf_show warehouse; sf_query := sf_query warehouse;
     sf_close_fault := None; duck_connect_fault := None;
     duck_fault := fun text =>
       if String.eqb text (preview_text "orders")
       then Some (Exn "IOException" "Could not read table orders") else None;
     duck_close_fault := None |}.

Arguments print_tables : simpl never.
Arguments version_text : simpl never.

(** A warehouse that connects but does not answer the version query. *)
Definition no_version : Env :=
  {| SNOWFLAKE_DATABASE := "DEMO_DB"; SNOWFLAKE_SCHEMA := "PUBLIC";
     sf_connect_fault := fun _ => None;
     sf_show := fun _ => inl sql_error; sf_query := sf_query warehouse;
     sf_close_fault := None; duck_connect_fault := None;
     duck_fault := fun _ => None; duck_close_fault := None |}.

(** The warehouse of before, answering the version query. *)
Definition versioned : Env :=
  {| SNOWFLAKE_DATABASE := "DEMO_DB"; SNOWFLAKE_SCHEMA := "PUBLIC";
     sf_connect_fault := fun _ => None;
     sf_show := fun text =>
       if String.eqb text "SELECT CURRENT_VERSION()" then inr [["8.2.1"]]
       else sf_show warehouse text;
     sf_query := sf_query warehouse;
     sf_close_fault := None; duck_connect_fault := None;
     duck_fault := fun _ => None; duck_close_fault := None |}.
(** * Proofs *)

(** ** Sessions, traces and states *)

Lemma is_live_opened h L : is_live h (opened h L) = true.
Proof.
  apply bool_decide_eq_true_2. unfold opened.
  apply elem_of_union_l, elem_of_singleton. reflexivity.
Qed.

Lemma is_live_released h L : is_live h (released h L) = false.
Proof.
  apply bool_decide_eq_false_2. unfold released.
  rewrite elem_of_difference, elem_of_singleton. tauto.
Qed.

Lemma sent_queries_app a b : sent_queries (a ++ b) = sent_queries a ++ sent_queries b.
Proof.
  induction a as [|ev a IH]; [reflexivity|].
  destruct ev; simpl; rewrite ?IH; reflexivity.
Qed.

Lemma amend_amend s T V e1 T' V' e2 :
  amend (amend s T V e1) T' V' e2 = amend s T' V' (e1 ++ e2).
Proof. unfold amend. simpl. rewrite <- app_assoc. reflexivity. Qed.

Lemma Ready_amend s T V evs : Ready s -> Ready (amend s T V evs).
Proof. intros [h [h' Hs]]. exists h, h'. exact Hs. Qed.

(** ** Symbolic execution

    [py_run] unfolds the monad and the driver calls and simplifies, using
    the equations in the context; [py_done] closes a goal whose two sides
    are the same state up to the bracketing of the trace. *)

Ltac py_core :=
  unfold sf_connect, duck_connect, sf_show_tables, sf_fetch, sf_close, duck_close,
    duck_execute, duck_register, duck_unregister, log, emit,
    set_snowflake_conn, set_duckdb_conn, set_sf_live, set_duck_live,
    set_tables, set_views, get, try_except, try_finally,
    mbind, Py_bind, bind, mret, Py_ret, ret, raise.

Ltac py_step :=
  first
    [ progress simpl
    | rewrite is_live_opened
    | rewrite lookup_insert_eq
    | rewrite lookup_delete_eq
    | match goal with H : ?x = _ |- context [?x] => rewrite H end ].

Ltac py_run := py_core; repeat py_step.

Ltac py_done :=
  unfold log_to, amend; repeat py_step; rewrite <- ?app_assoc; simpl; reflexivity.

(** ** The loader *)

Section Loader.

Variable env : Env.

Lemma df_empty_false df :
  (0 < df_len df)%nat -> (0 < df_width df)%nat -> df_empty df = false.
Proof.
  intros Hr Hc. unfold df_empty.
  destruct (df_len df); [lia|]. destruct (df_width df); [lia|]. reflexivity.
Qed.

Lemma write_to_duckdb_ok s h df t :
  duckdb_conn s = Some h -> is_live h (duck_live s) = true ->
  df_empty df = false ->
  duck_fault env (sql (DropTableIfExists (clean_table_name t))) = None ->
  duck_fault env (sql (CreateTableAsSelect (clean_table_name t)
                         (clean_table_name t +:+ "_temp"))) = None ->
  duck_fault env (sql (SelectCount (clean_table_name t))) = None ->
  write_to_duckdb env df t s =
    (Return true,
     amend s (<[clean_table_name t := df]> (delete (clean_table_name t) (tables s)))
             (delete (clean_table_name t +:+ "_temp")
                (<[clean_table_name t +:+ "_temp" := df]> (views s)))
             (write_events df (clean_table_name t))).
Proof.
  intros Hc Hl He H1 H2 H3. unfold sql in *.
  unfold write_to_duckdb. py_run. unfold write_events. py_done.
Qed.

(** A COUNT on a table of the catalog, through an open session. *)
Lemma recount_written s h df n T V evs :
  is_live h (duck_live s) = true ->
  duck_fault env (sql (SelectCount n)) = None ->
  recount env h n (amend s (<[n := df]> T) V evs) = Return (Some (Z.of_nat (df_len df))).
Proof.
  intros Hl Hf. unfold sql in *. unfold recount, amend. py_run. reflexivity.
Qed.

End Loader.

(** ** The extractor *)

Section Extractor.

Variable env : Env.

Lemma read_snowflake_data_live s h q limit :
  snowflake_conn s = Some h -> is_live h (sf_live s) = true ->
  read_snowflake_data env q limit s =
    match sf_query env (limited_query q limit) with
    | inl e =>
        (Raise e,
         log_to s (read_prologue q limit ++
                   [Log ERROR ("Failed to read from Snowflake: " +:+ str e)]))
    | inr res =>
        match f_rows res with
        | [] =>
            (Return (Some DataFrame_new),
             log_to s (read_prologue q limit ++ [Log WARNING "Query returned no results"]))
        | _ :: _ =>
            (Return (Some (DataFrame_of res)),
             log_to s (read_prologue q limit ++
                       [Log INFO ("Successfully read " +:+ pretty (df_len (DataFrame_of res))
                                  +:+ " rows with " +:+ pretty (df_width (DataFrame_of res))
                                  +:+ " columns from Snowflake")]))
        end
    end.
Proof.
  intros Hc Hl. unfold read_prologue, read_snowflake_data. py_run.
  destruct (sf_query env (limited_query q limit)) as [e|res]; simpl.
  - py_done.
  - destruct (f_rows res) eqn:Hrows; simpl; py_done.
Qed.

End Extractor.

(** ** Stage by stage *)

Section Stages.

Variable env : Env.

Lemma connect_snowflake_eq s :
  connect_snowflake env s =
    if remote_available env
    then (Return true, with_remote s (connect_events env))
    else (Return false, log_to s (connect_events env)).
Proof.
  unfold connect_snowflake, remote_available, connect_events, with_remote. py_run.
  destruct (sf_connect_fault env false) as [e1|]; simpl.
  - destruct (sf_connect_fault env true) as [e2|]; simpl; py_done.
  - py_done.
Qed.

Lemma connect_duckdb_eq s :
  connect_duckdb env s =
    match duck_connect_fault env with
    | None =>
        (Return true,
         with_local s [DuckConnect DUCKDB_PATH;
                       Log INFO ("Successfully connected to DuckDB: " +:+ DUCKDB_PATH)])
    | Some e =>
        (Return false,
         log_to s [DuckConnect DUCKDB_PATH;
                   Log ERROR ("Failed to connect to DuckDB: " +:+ str e)])
    end.
Proof.
  unfold connect_duckdb, with_local. py_run.
  destruct (duck_connect_fault env) as [e|]; simpl; py_done.
Qed.

Lemma get_snowflake_tables_live s h :
  snowflake_conn s = Some h -> is_live h (sf_live s) = true ->
  get_snowflake_tables env s = (Return (discovered env), log_to s (discovery_events env)).
Proof.
  intros Hc Hl.
  unfold get_snowflake_tables, discovered, discovery_events.
  fold (show_tables_text env). py_run.
  destruct (sf_show env (show_tables_text env)) as [e|rows]; simpl.
  - py_done.
  - destruct (second_fields rows) as [names|]; simpl; py_done.
Qed.

Lemma get_snowflake_tables_stale s h :
  snowflake_conn s = Some h -> is_live h (sf_live s) = false ->
  get_snowflake_tables env s =
    (Return [], log_to s [Log ERROR ("Failed to get table list: " +:+ str closed_session)]).
Proof.
  intros Hc Hl. unfold get_snowflake_tables. py_run. py_done.
Qed.

Lemma get_snowflake_tables_unset s :
  snowflake_conn s = None ->
  get_snowflake_tables env s =
    (Return [], log_to s [Log ERROR ("Failed to get table list: "
                                     +:+ "Snowflake connection not established")]).
Proof.
  intros Hc. unfold get_snowflake_tables. py_run. py_done.
Qed.

(** [cleanup] never raises, leaves the store alone and releases the sessions
    the object holds. *)
Lemma cleanup_eq s :
  exists evs,
    cleanup env s =
      (Return tt,
       {| snowflake_conn := snowflake_conn s; duckdb_conn := duckdb_conn s;
          sf_live := match snowflake_conn s with
                     | Some h => released h (sf_live s)
                     | None => sf_live s
                     end;
          duck_live := match duckdb_conn s with
                       | Some h => released h (duck_live s)
                       | None => duck_live s
                       end;
          next_handle := next_handle s;
          tables := tables s; views := views s; trace := trace s ++ evs |}) /\
    sent_queries evs = [] /\ store_statements evs = [] /\
    (forall h, snowflake_conn s = Some h -> In (SfClose h) evs) /\
    (forall h, duckdb_conn s = Some h -> In (DuckClose h) evs).
Proof.
  destruct s as [sc dc sl dl nh T V tr]. unfold cleanup. py_core. simpl.
  destruct sc as [h|], dc as [h'|];
    destruct (sf_close_fault env) eqn:Fs, (duck_close_fault env) eqn:Fd;
    repeat py_step;
    first [ exists []; simpl; rewrite app_nil_r; split; [reflexivity|]
          | eexists; (split; [py_done|]) ];
    repeat split; try reflexivity;
    intros ? Hh; inversion Hh; subst; simpl; tauto.
Qed.

End Stages.

(** ** The stages on a ready pipeline object *)

Section Ready.

Variable env : Env.

Lemma store_statements_app a b :
  store_statements (a ++ b) = store_statements a ++ store_statements b.
Proof.
  induction a as [|ev a IH]; [reflexivity|].
  destruct ev; simpl; rewrite ?IH; reflexivity.
Qed.

Lemma sent_queries_discovery : sent_queries (discovery_events env) = [].
Proof.
  unfold discovery_events.
  destruct (sf_show env (show_tables_text env)) as [e|rows]; [reflexivity|].
  destruct (second_fields rows); reflexivity.
Qed.

Lemma resolve_target_ready tn cq s :
  Ready s ->
  exists evs,
    resolve_target env tn cq s =
      (match target env tn cq with
       | Some p => Return p
       | None => Raise no_tables_found
       end, log_to s evs) /\
    sent_queries evs = [].
Proof.
  intros (h & h' & Hc & Hl & _).
  unfold resolve_target, target.
  destruct (PyStr.truthy cq).
  { exists []. split; [|reflexivity]. destruct s; py_run. unfold log_to, amend; simpl.
    rewrite app_nil_r. reflexivity. }
  destruct (PyStr.truthy tn).
  { exists []. split; [|reflexivity]. destruct s; py_run. unfold log_to, amend; simpl.
    rewrite app_nil_r. reflexivity. }
  pose proof (get_snowflake_tables_live env s h Hc Hl) as Hg.
  py_run. destruct (discovered env) as [|t names]; simpl.
  - exists (discovery_events env). split; [py_done|apply sent_queries_discovery].
  - exists (discovery_events env ++ [Log INFO ("Using first available table: " +:+ t)]).
    split; [py_done|].
    rewrite sent_queries_app, sent_queries_discovery. reflexivity.
Qed.

Lemma read_snowflake_data_ready q limit s :
  Ready s ->
  exists evs,
    read_snowflake_data env q limit s = (extracted env q limit, log_to s evs) /\
    sent_queries evs = [limited_query q limit].
Proof.
  intros (h & h' & Hc & Hl & _).
  rewrite (read_snowflake_data_live env s h q limit Hc Hl). unfold extracted.
  destruct (sf_query env (limited_query q limit)) as [e|res].
  - eexists. split; reflexivity.
  - destruct (f_rows res); eexists; split; reflexivity.
Qed.

Lemma write_to_duckdb_ready df t s :
  Ready s -> df_empty df = false ->
  exists V evs,
    write_to_duckdb env df t s =
      (fst (written env df t), amend s (snd (written env df t) (tables s)) V evs) /\
    sent_queries evs = [].
Proof.
  intros (h & h' & _ & _ & Hc & Hl) He.
  unfold written, write_to_duckdb, sql. py_run.
  destruct (duck_fault env ("DROP TABLE IF EXISTS " +:+ clean_table_name t)) as [e|];
    repeat py_step.
  { eexists _, _. split; [py_done|reflexivity]. }
  destruct (duck_fault env _) as [e|]; repeat py_step.
  { eexists _, _. split; [py_done|reflexivity]. }
  destruct (duck_fault env _) as [e|]; repeat py_step.
  { eexists _, _. split; [py_done|reflexivity]. }
  eexists _, _. split; [py_done|reflexivity].
Qed.

End Ready.

(** ** Composition *)

Lemma bind_Return {A B} (m : Py A) (k : A -> Py B) s a s' :
  m s = (Return a, s') -> (m ≫= k) s = k a s'.
Proof. intros H. unfold mbind, Py_bind, bind. rewrite H. reflexivity. Qed.

Lemma bind_Raise {A B} (m : Py A) (k : A -> Py B) s e s' :
  m s = (Raise e, s') -> (m ≫= k) s = (Raise e, s').
Proof. intros H. unfold mbind, Py_bind, bind. rewrite H. reflexivity. Qed.

Lemma log_eq lv msg s : log lv msg s = (Return tt, log_to s [Log lv msg]).
Proof. reflexivity. Qed.

Lemma mret_eq {A} (a : A) s : (mret a : Py A) s = (Return a, s).
Proof. reflexivity. Qed.

Lemma raise_eq {A} e s : (raise e : Py A) s = (Raise e, s).
Proof. reflexivity. Qed.

Lemma Ready_log_to s evs : Ready s -> Ready (log_to s evs).
Proof. apply Ready_amend. Qed.

Ltac py_log := rewrite (bind_Return _ _ _ _ _ (log_eq _ _ _)).

(** Closes [state = amend s T V ?evs] and the side condition on [?evs]. *)
Ltac py_close :=
  unfold log_to, amend; simpl; rewrite <- ?app_assoc; reflexivity.

Section Stages_after_connection.

Variable env : Env.

Lemma load_stages_eq tn cq limit s :
  Ready s ->
  exists V evs,
    load_stages env tn cq limit s =
      (fst (load_result env tn cq limit),
       amend s (snd (load_result env tn cq limit) (tables s)) V evs) /\
    sent_queries evs = load_queries env tn cq limit.
Proof.
  intros HR. unfold load_stages, load_result, load_queries.
  destruct (resolve_target_ready env tn cq s HR) as (e1 & Hres & Hq1).
  destruct (target env tn cq) as [[q name]|].
  2:{ rewrite (bind_Raise _ _ _ _ _ Hres). exists (views s), e1. split; [reflexivity|exact Hq1]. }
  rewrite (bind_Return _ _ _ _ _ Hres). cbv beta iota. py_log.
  match goal with |- context [mbind _ (read_snowflake_data env q limit) ?s2] =>
    destruct (read_snowflake_data_ready env q limit s2) as (e2 & Hread & Hq2);
      [auto using Ready_log_to|]
  end.
  destruct (extracted env q limit) as [[d|]|e].
  - rewrite (bind_Return _ _ _ _ _ Hread). destruct (df_empty d) eqn:He.
    + py_log. rewrite mret_eq. eexists (views s), _. split; [py_close|].
      rewrite !sent_queries_app, Hq1, Hq2. reflexivity.
    + py_log.
      match goal with |- context [mbind _ (write_to_duckdb env d name) ?s3] =>
        destruct (write_to_duckdb_ready env d name s3) as (V & e3 & Hw & Hq3);
          [auto using Ready_log_to|exact He|]
      end.
      destruct (written env d name) as [[[|]|e] f]; simpl in Hw.
      * rewrite (bind_Return _ _ _ _ _ Hw). py_log. rewrite mret_eq.
        eexists V, _. split; [py_close|].
        rewrite !sent_queries_app, Hq1, Hq2, Hq3. reflexivity.
      * rewrite (bind_Return _ _ _ _ _ Hw). rewrite raise_eq.
        eexists V, _. split; [py_close|].
        rewrite !sent_queries_app, Hq1, Hq2, Hq3. reflexivity.
      * rewrite (bind_Raise _ _ _ _ _ Hw).
        eexists V, _. split; [py_close|].
        rewrite !sent_queries_app, Hq1, Hq2, Hq3. reflexivity.
  - rewrite (bind_Return _ _ _ _ _ Hread). py_log. rewrite mret_eq.
    eexists (views s), _. split; [py_close|].
    rewrite !sent_queries_app, Hq1, Hq2. reflexivity.
  - rewrite (bind_Raise _ _ _ _ _ Hread).
    eexists (views s), _. split; [py_close|].
    rewrite !sent_queries_app, Hq1, Hq2. reflexivity.
Qed.

End Stages_after_connection.

(** ** The orchestrator *)

Lemma try_except_Return {A} (m : Py A) h s a s' :
  m s = (Return a, s') -> try_except m h s = (Return a, s').
Proof. intros H. unfold try_except. rewrite H. reflexivity. Qed.

Lemma try_except_Raise {A} (m : Py A) h s e s' :
  m s = (Raise e, s') -> try_except m h s = h e s'.
Proof. intros H. unfold try_except. rewrite H. reflexivity. Qed.

Lemma try_finally_eq {A} (m : Py A) f s r s1 s2 :
  m s = (r, s1) -> f s1 = (Return tt, s2) -> try_finally m f s = (r, s2).
Proof. intros H1 H2. unfold try_finally. rewrite H1, H2. reflexivity. Qed.

Lemma Ready_connected s e1 e2 : Ready (with_local (with_remote s e1) e2).
Proof.
  exists (next_handle s), (S (next_handle s)). simpl.
  repeat split; apply is_live_opened.
Qed.

Lemma opened_subset (h : handle) (L L0 : gset handle) :
  L ⊆ L0 -> opened h L ⊆ L0 ∪ {[h]}.
Proof.
  intros HL x. unfold opened. rewrite !elem_of_union, elem_of_singleton.
  intros [Hx|Hx]; [right; exact Hx|left; apply HL; exact Hx].
Qed.

Lemma owns_amend s0 s T V evs : owns s0 s -> owns s0 (amend s T V evs).
Proof. intros H. exact H. Qed.

Lemma owns_refl s : owns s s.
Proof. split; apply union_subseteq_l. Qed.

Lemma owns_with_remote s0 s evs :
  sf_live s ⊆ sf_live s0 -> duck_live s ⊆ duck_live s0 ∪ held (duckdb_conn s) ->
  owns s0 (with_remote s evs).
Proof. intros H1 H2. split; simpl; [apply opened_subset; exact H1|exact H2]. Qed.

Lemma owns_with_local s0 s evs :
  sf_live s ⊆ sf_live s0 ∪ held (snowflake_conn s) -> duck_live s ⊆ duck_live s0 ->
  owns s0 (with_local s evs).
Proof. intros H1 H2. split; simpl; [exact H1|apply opened_subset; exact H2]. Qed.

Lemma released_subset (h : handle) (L L0 : gset handle) :
  L ⊆ L0 ∪ {[h]} -> released h L ⊆ L0.
Proof.
  intros HL x. unfold released. rewrite elem_of_difference, elem_of_singleton.
  intros [Hx Hn]. apply HL in Hx. apply elem_of_union in Hx as [Hx|Hx]; [exact Hx|].
  apply elem_of_singleton in Hx. contradiction.
Qed.

Lemma not_in_released (h : handle) (L : gset handle) : h ∉ released h L.
Proof. unfold released. rewrite elem_of_difference, elem_of_singleton. tauto. Qed.

Section Orchestrator.

Variable env : Env.

Lemma cleanup_releases s0 s :
  owns s0 s ->
  exists s' evs,
    cleanup env s = (Return tt, s') /\ all_released s0 s' /\
    tables s' = tables s /\ trace s' = trace s ++ evs /\ sent_queries evs = [] /\
    (forall h, snowflake_conn s' = Some h -> In (SfClose h) evs) /\
    (forall h, duckdb_conn s' = Some h -> In (DuckClose h) evs).
Proof.
  intros [H1 H2]. destruct (cleanup_eq env s) as (evs & Hc & Hq & _ & Hsf & Hdk).
  eexists _, evs. split; [exact Hc|]. simpl.
  split; [|repeat split; assumption].
  unfold all_released; simpl. split; [|split; [|split]].
  - destruct (snowflake_conn s); simpl in H1; [apply released_subset; exact H1|].
    rewrite union_empty_r_L in H1. exact H1.
  - destruct (duckdb_conn s); simpl in H2; [apply released_subset; exact H2|].
    rewrite union_empty_r_L in H2. exact H2.
  - intros h Hh. rewrite Hh. apply not_in_released.
  - intros h Hh. rewrite Hh. apply not_in_released.
Qed.

Lemma run_stages_unfold tn cq limit :
  run_stages env tn cq limit =
    (log INFO "=== Starting Data Pipeline ===";;
     connected ← connect_snowflake env;
     if negb connected then raise (Exception "Could not connect to Snowflake") else
     connected ← connect_duckdb env;
     if negb connected then raise (Exception "Could not connect to DuckDB") else
     load_stages env tn cq limit).
Proof. reflexivity. Qed.

Lemma run_stages_eq tn cq limit s :
  exists s1 evs,
    run_stages env tn cq limit s = (fst (run_result env tn cq limit), s1) /\
    owns s s1 /\
    tables s1 = snd (run_result env tn cq limit) (tables s) /\
    trace s1 = trace s ++ run_banner :: connect_events env ++ evs /\
    sent_queries evs = run_queries env tn cq limit.
Proof.
  rewrite run_stages_unfold. unfold run_result, run_queries. py_log.
  fold run_banner.
  pose proof (connect_snowflake_eq env (log_to s [run_banner])) as Hcs.
  destruct (remote_available env).
  2:{ rewrite (bind_Return _ _ _ _ _ Hcs). cbn [negb]. rewrite raise_eq.
      eexists _, []. split; [reflexivity|].
      split; [unfold log_to; apply owns_amend, owns_amend, owns_refl|].
      split; [reflexivity|]. split; [|reflexivity].
      simpl. rewrite <- !app_assoc, app_nil_r. reflexivity. }
  rewrite (bind_Return _ _ _ _ _ Hcs). cbn [negb].
  match goal with |- context [mbind _ (connect_duckdb env) ?s2] =>
    pose proof (connect_duckdb_eq env s2) as Hcd
  end.
  assert (Ho : owns s (with_remote (log_to s [run_banner]) (connect_events env))).
  { apply owns_with_remote; simpl; [reflexivity|apply union_subseteq_l]. }
  destruct (duck_connect_fault env) as [e|].
  - rewrite (bind_Return _ _ _ _ _ Hcd). cbn [negb]. rewrite raise_eq.
    eexists _, _. split; [reflexivity|]. split; [exact Ho|].
    split; [reflexivity|]. split.
    + simpl. rewrite <- !app_assoc. reflexivity.
    + reflexivity.
  - rewrite (bind_Return _ _ _ _ _ Hcd). cbn [negb].
    match goal with |- context [load_stages env tn cq limit ?s3] =>
      destruct (load_stages_eq env tn cq limit s3) as (V & evs & Hl & Hq);
        [apply Ready_connected|]
    end.
    rewrite Hl. eexists _, _. split; [reflexivity|]. split.
    { apply owns_amend, owns_with_local; [apply Ho|simpl; reflexivity]. }
    split; [reflexivity|]. split.
    + simpl. rewrite <- !app_assoc. reflexivity.
    + simpl. exact Hq.
Qed.

(** The run: outcome, effect on the catalog, queries sent, sessions. *)
Lemma run_pipeline_eq tn cq limit s :
  exists s' evs,
    run_pipeline env tn cq limit s = (fst (run_result env tn cq limit), s') /\
    all_released s s' /\
    tables s' = snd (run_result env tn cq limit) (tables s) /\
    trace s' = trace s ++ run_banner :: connect_events env ++ evs /\
    sent_queries evs = run_queries env tn cq limit /\
    (forall h, snowflake_conn s' = Some h -> In (SfClose h) evs) /\
    (forall h, duckdb_conn s' = Some h -> In (DuckClose h) evs).
Proof.
  destruct (run_stages_eq tn cq limit s) as (s1 & evs & Hs & Ho & Ht & Htr & Hq).
  unfold run_pipeline.
  destruct (fst (run_result env tn cq limit)) as [r|e].
  - destruct (cleanup_releases s s1 Ho)
      as (s2 & evs2 & Hc & Hrel & Ht2 & Htr2 & Hq2 & Hsf & Hdk).
    exists s2, (evs ++ evs2). split.
    { eapply try_finally_eq; [|exact Hc]. apply try_except_Return. exact Hs. }
    split; [exact Hrel|]. split; [congruence|]. split.
    + rewrite Htr2, Htr. rewrite <- !app_assoc. simpl. rewrite <- !app_assoc. reflexivity.
    + split; [rewrite sent_queries_app, Hq, Hq2; apply app_nil_r|].
      split; intros h Hh; apply in_or_app; right; auto.
  - set (s1' := log_to s1 [Log ERROR ("Pipeline failed: " +:+ str e)]).
    destruct (cleanup_releases s s1')
      as (s2 & evs2 & Hc & Hrel & Ht2 & Htr2 & Hq2 & Hsf & Hdk);
      [apply owns_amend; exact Ho|].
    exists s2, (evs ++ [Log ERROR ("Pipeline failed: " +:+ str e)] ++ evs2). split.
    { eapply try_finally_eq; [|exact Hc].
      rewrite (try_except_Raise _ _ _ _ _ Hs). py_log. apply raise_eq. }
    split; [exact Hrel|]. split; [rewrite Ht2; exact Ht|]. split.
    + rewrite Htr2. subst s1'. simpl. rewrite Htr.
      rewrite <- !app_assoc. simpl. rewrite <- !app_assoc. reflexivity.
    + split; [rewrite !sent_queries_app, Hq, Hq2; simpl; apply app_nil_r|].
      split; intros h Hh; apply in_or_app; right; apply in_or_app; right; auto.
Qed.

End Orchestrator.

(** ** Facts about the run as a function of the environment *)

Section Run_result.

Variable env : Env.

Lemma written_idem df t T :
  snd (written env df t) (snd (written env df t) T) = snd (written env df t) T.
Proof.
  unfold written.
  destruct (duck_fault env (sql (DropTableIfExists (clean_table_name t)))); simpl;
    [reflexivity|].
  destruct (duck_fault env _); simpl;
    [apply delete_delete_eq|].
  destruct (duck_fault env _); simpl;
    rewrite delete_insert_eq, delete_delete_eq; reflexivity.
Qed.

Lemma written_Return df t b :
  fst (written env df t) = Return b ->
  b = true /\
  forall T, snd (written env df t) T
            = <[clean_table_name t := df]> (delete (clean_table_name t) T).
Proof.
  unfold written.
  destruct (duck_fault env (sql (DropTableIfExists (clean_table_name t)))); simpl;
    [discriminate|].
  destruct (duck_fault env _); simpl; [discriminate|].
  destruct (duck_fault env _); simpl; [discriminate|].
  intros [= <-]. split; reflexivity.
Qed.

Lemma load_result_idem tn cq limit T :
  snd (load_result env tn cq limit) (snd (load_result env tn cq limit) T)
  = snd (load_result env tn cq limit) T.
Proof.
  unfold load_result.
  destruct (target env tn cq) as [[q name]|]; [|reflexivity].
  destruct (extracted env q limit) as [[d|]|e]; try reflexivity.
  destruct (df_empty d); [reflexivity|].
  pose proof (written_idem d name T) as Hw.
  destruct (written env d name) as [[[|]|e] f]; exact Hw.
Qed.

Lemma run_result_idem tn cq limit T :
  snd (run_result env tn cq limit) (snd (run_result env tn cq limit) T)
  = snd (run_result env tn cq limit) T.
Proof.
  unfold run_result. destruct (remote_available env); [|reflexivity].
  destruct (duck_connect_fault env); [reflexivity|]. apply load_result_idem.
Qed.

(** A run returns a result set only when every stage went through; the
    result set is then the one fetched, and it is what the target holds. *)
Lemma run_result_success tn cq limit df :
  fst (run_result env tn cq limit) = Return (Some df) ->
  exists q name res,
    remote_available env = true /\ duck_connect_fault env = None /\
    target env tn cq = Some (q, name) /\
    sf_query env (limited_query q limit) = inr res /\
    df = DataFrame_of res /\ df_empty df = false /\
    forall T, snd (run_result env tn cq limit) T
              = <[clean_table_name name := df]> (delete (clean_table_name name) T).
Proof.
  unfold run_result. destruct (remote_available env); [|discriminate].
  destruct (duck_connect_fault env); [discriminate|].
  unfold load_result, extracted.
  destruct (target env tn cq) as [[q name]|]; [|discriminate].
  destruct (sf_query env (limited_query q limit)) as [e|res] eqn:Hsq; [discriminate|].
  destruct (f_rows res) eqn:Hrows; [simpl; discriminate|].
  destruct (df_empty (DataFrame_of res)) eqn:He; [discriminate|].
  pose proof (written_Return (DataFrame_of res) name) as Hw.
  destruct (written env (DataFrame_of res) name) as [[[|]|e] f]; simpl in *;
    try discriminate.
  intros [= <-]. destruct (Hw true eq_refl) as [_ Hf].
  exists q, name, res. repeat split; auto.
Qed.

End Run_result.

Section Run_facts.

Variable env : Env.

Lemma run_pipeline_fst tn cq limit s :
  fst (run_pipeline env tn cq limit s) = fst (run_result env tn cq limit).
Proof.
  destruct (run_pipeline_eq env tn cq limit s) as (s' & evs & H & _). rewrite H. reflexivity.
Qed.

Lemma run_pipeline_tables tn cq limit s :
  tables (snd (run_pipeline env tn cq limit s)) = snd (run_result env tn cq limit) (tables s).
Proof.
  destruct (run_pipeline_eq env tn cq limit s) as (s' & evs & H & _ & Ht & _).
  rewrite H. exact Ht.
Qed.

Lemma sent_queries_connect : sent_queries (connect_events env) = [].
Proof.
  unfold connect_events. destruct (sf_connect_fault env false); [|reflexivity].
  destruct (sf_connect_fault env true); reflexivity.
Qed.

Lemma extracted_nonempty q limit res :
  sf_query env (limited_query q limit) = inr res ->
  df_empty (DataFrame_of res) = false ->
  extracted env q limit = Return (Some (DataFrame_of res)).
Proof.
  intros Hq He. unfold extracted. rewrite Hq.
  destruct (f_rows res) eqn:Hr; [|reflexivity].
  unfold df_empty, df_len in He. simpl in He. rewrite Hr in He. discriminate.
Qed.

Lemma extracted_no_rows q limit res :
  sf_query env (limited_query q limit) = inr res -> f_rows res = [] ->
  extracted env q limit = Return (Some DataFrame_new).
Proof. intros Hq Hr. unfold extracted. rewrite Hq, Hr. reflexivity. Qed.

Lemma target_discovery tn cq :
  PyStr.truthy tn = false -> PyStr.truthy cq = false ->
  target env tn cq =
    match discovered env with
    | [] => None
    | t :: _ => Some ("SELECT * FROM " +:+ t, PyStr.lower t)
    end.
Proof. intros Ht Hc. unfold target. rewrite Ht, Hc. reflexivity. Qed.

End Run_facts.

Lemma run_result_trusted env tn cq limit :
  remote_available env = true ->
  run_result (trusted env) tn cq limit = run_result env tn cq limit.
Proof.
  intros Hr. unfold run_result. rewrite Hr.
  change (remote_available (trusted env)) with true.
  change (duck_connect_fault (trusted env)) with (duck_connect_fault env).
  change (load_result (trusted env) tn cq limit) with (load_result env tn cq limit).
  reflexivity.
Qed.
(** ** Scenarios *)

Example sanitized_name : clean_table_name "My-Table.v2" = "My_Table_v2".
Proof. reflexivity. Qed.

Example limit_appended : limited_query "SELECT * FROM T" 50 = "SELECT * FROM T LIMIT 50".
Proof. reflexivity. Qed.

Example limit_kept : limited_query "SELECT * FROM T LIMIT 10" 50 = "SELECT * FROM T LIMIT 10".
Proof. reflexivity. Qed.

Example custom_query_target :
  target warehouse (Some "ORDERS") (Some "SELECT 1")
  = Some ("SELECT 1", "custom_query_result").
Proof. reflexivity. Qed.

(** The table ORDERS, three rows and two columns, loaded on an empty store. *)
Example orders_loaded :
  let '(r, s) := run_pipeline warehouse (Some "ORDERS") None default_limit init in
  r = Return (Some (DataFrame_of orders)) /\
  df_len (DataFrame_of orders) = 3%nat /\ df_width (DataFrame_of orders) = 2%nat /\
  map_to_list (tables s) = [("orders", DataFrame_of orders)] /\
  sf_live s = ∅ /\ duck_live s = ∅.
Proof. vm_compute. repeat split; reflexivity. Qed.

(** ** Claims about the loader *)

(** C1 (as stated, refuted). The claim has [write_to_duckdb] return the
    re-queried COUNT as part of its outcome. The value it returns is the
    bare flag [True]: writing three rows and writing one row return the
    same value, so the returned value carries no row count. *)
Lemma write_to_duckdb_returns_flag_only :
  fst (write_to_duckdb warehouse (DataFrame_of orders) "orders" connected) = Return true /\
  fst (write_to_duckdb warehouse (DataFrame_of one_order) "orders" connected) = Return true /\
  df_len (DataFrame_of orders) <> df_len (DataFrame_of one_order).
Proof. vm_compute. repeat split; discriminate. Qed.

(** C1 (amended). For a result set with at least one row and at least one
    column, on an open local session and with the three statements accepted
    by the store, [write_to_duckdb] drops and re-creates the sanitized
    target, then re-queries COUNT on it; the count reported in the final log
    line is the number of written rows, a COUNT re-read on the target after
    the call gives that number again, and the value returned is [True]. *)
Theorem write_to_duckdb_verified env s h df t :
  duckdb_conn s = Some h -> is_live h (duck_live s) = true ->
  (0 < df_len df)%nat -> (0 < df_width df)%nat ->
  duck_fault env (sql (DropTableIfExists (clean_table_name t))) = None ->
  duck_fault env (sql (CreateTableAsSelect (clean_table_name t)
                         (clean_table_name t +:+ "_temp"))) = None ->
  duck_fault env (sql (SelectCount (clean_table_name t))) = None ->
  exists s',
    write_to_duckdb env df t s = (Return true, s') /\
    recount env h (clean_table_name t) s' = Return (Some (Z.of_nat (df_len df))) /\
    trace s' = trace s ++ write_events df (clean_table_name t) /\
    last (trace s') =
      Some (Log INFO ("Successfully wrote " +:+ pretty (Z.of_nat (length (df_rows df)))
                      +:+ " rows to DuckDB table: " +:+ clean_table_name t)).
Proof.
  intros Hc Hl Hr Hw H1 H2 H3.
  eexists. split.
  - apply (write_to_duckdb_ok env s h); auto using df_empty_false.
  - split; [|split; [reflexivity|]].
    + apply recount_written; assumption.
    + simpl. unfold write_events. rewrite last_app. reflexivity.
Qed.

Lemma write_to_duckdb_verified_witness :
  exists s',
    write_to_duckdb warehouse (DataFrame_of orders) "My-Table.v2" connected = (Return true, s') /\
    recount warehouse 1%nat "My_Table_v2" s' = Return (Some 3%Z) /\
    last (trace s') =
      Some (Log INFO "Successfully wrote 3 rows to DuckDB table: My_Table_v2").
Proof.
  destruct (write_to_duckdb_verified warehouse connected 1%nat (DataFrame_of orders) "My-Table.v2")
    as (s' & Hw & Ht & _ & Hl).
  - reflexivity.
  - vm_compute. reflexivity.
  - vm_compute. lia.
  - vm_compute. lia.
  - reflexivity.
  - reflexivity.
  - reflexivity.
  - exists s'. split; [exact Hw|]. split; [exact Ht|exact Hl].
Defined.

(** C2. With a result set of zero rows, [write_to_duckdb] changes nothing
    but the log: no statement reaches the store, the catalog and the staging
    bindings are as before, and the call does not report success; on an
    established session it returns [False]. *)
Theorem write_to_duckdb_empty env s df t :
  df_len df = 0%nat ->
  exists r s' evs,
    write_to_duckdb env df t s = (r, s') /\
    tables s' = tables s /\ views s' = views s /\
    trace s' = trace s ++ evs /\ store_statements evs = [] /\
    r <> Return true /\
    (forall h, duckdb_conn s = Some h -> r = Return false).
Proof.
  intros Hz.
  assert (He : df_empty df = true) by (unfold df_empty; rewrite Hz; reflexivity).
  destruct (duckdb_conn s) as [h|] eqn:Hc.
  - exists (Return false), (log_to s [Log WARNING "DataFrame is empty, skipping write"]).
    eexists. split; [unfold write_to_duckdb; py_run; py_done|].
    repeat split; [discriminate].
  - exists (Raise (Exception "DuckDB connection not established")),
      (log_to s [Log ERROR ("Failed to write to DuckDB: "
                            +:+ "DuckDB connection not established")]).
    eexists. split; [unfold write_to_duckdb; py_run; py_done|].
    repeat split; discriminate.
Qed.

Lemma write_to_duckdb_empty_witness :
  exists r s',
    write_to_duckdb warehouse DataFrame_new "orders" connected = (r, s') /\
    tables s' = tables connected /\ r = Return false.
Proof.
  destruct (write_to_duckdb_empty warehouse connected DataFrame_new "orders" eq_refl)
    as (r & s' & evs & Hw & Ht & _ & _ & _ & _ & Hr).
  exists r, s'. split; [exact Hw|]. split; [exact Ht|]. apply (Hr 1%nat). reflexivity.
Defined.

(** ** Claims about the extractor *)

(** C5. The query [SELECT * FROM LIMITS] has no row-limiting clause: LIMIT
    does not occur in it as a word. A limiting clause is to be appended to
    such a query. [read_snowflake_data] sends it as it is, and the limit 50
    it was given is ignored: its guard looks for the letters LIMIT anywhere
    in the upper-cased text, and finds them in the table name. *)
Theorem read_snowflake_data_skips_limit :
  has_limit_clause "SELECT * FROM LIMITS" = false /\
  sent_queries (trace (snd (read_snowflake_data warehouse "SELECT * FROM LIMITS" 50 connected)))
    = ["SELECT * FROM LIMITS"] /\
  limited_query "SELECT * FROM ORDERS" 50 = "SELECT * FROM ORDERS LIMIT 50" /\
  limited_query "select * from orders limit 10" 50 = "select * from orders limit 10".
Proof. vm_compute. repeat split; reflexivity. Qed.

(** The guard of [read_snowflake_data], exactly. On an established session
    the call sends one query. When the upper-cased query text does not
    contain the substring LIMIT, the text sent is the query without its
    trailing semicolons followed by [" LIMIT "] and the limit (1000 by
    default); when it contains that substring, the query is sent
    unaltered. *)
Lemma read_snowflake_data_limit env s h q limit :
  snowflake_conn s = Some h -> is_live h (sf_live s) = true ->
  exists r evs,
    read_snowflake_data env q limit s = (r, log_to s evs) /\
    sent_queries evs = [limited_query q limit] /\
    (PyStr.contains "LIMIT" (PyStr.upper q) = false ->
     limited_query q limit = PyStr.rstrip ";" q +:+ " LIMIT " +:+ pretty limit) /\
    (PyStr.contains "LIMIT" (PyStr.upper q) = true -> limited_query q limit = q) /\
    pretty default_limit = "1000".
Proof.
  intros Hc Hl.
  assert (Hq : forall tail, sent_queries (read_prologue q limit ++ [Log ERROR tail]) = [limited_query q limit]
                            /\ sent_queries (read_prologue q limit ++ [Log WARNING tail]) = [limited_query q limit]
                            /\ sent_queries (read_prologue q limit ++ [Log INFO tail]) = [limited_query q limit])
    by (intros; repeat split; reflexivity).
  rewrite (read_snowflake_data_live env s h q limit Hc Hl).
  assert (Hlim : (PyStr.contains "LIMIT" (PyStr.upper q) = false ->
                  limited_query q limit = PyStr.rstrip ";" q +:+ " LIMIT " +:+ pretty limit) /\
                 (PyStr.contains "LIMIT" (PyStr.upper q) = true -> limited_query q limit = q) /\
                 pretty default_limit = "1000").
  { unfold limited_query. repeat split; intros ->; reflexivity. }
  destruct (sf_query env (limited_query q limit)) as [e|res].
  - eexists _, _. split; [reflexivity|]. split; [apply Hq|exact Hlim].
  - destruct (f_rows res).
    + eexists _, _. split; [reflexivity|]. split; [apply Hq|exact Hlim].
    + eexists _, _. split; [reflexivity|]. split; [apply Hq|exact Hlim].
Qed.

Example read_snowflake_data_limit_strips_semicolon :
  exists r evs,
    read_snowflake_data warehouse "SELECT * FROM T;" 50 connected = (r, log_to connected evs) /\
    sent_queries evs = ["SELECT * FROM T LIMIT 50"].
Proof.
  destruct (read_snowflake_data_limit warehouse connected 0%nat "SELECT * FROM T;" 50)
    as (r & evs & Hr & Hs & _).
  - reflexivity.
  - vm_compute. reflexivity.
  - exists r, evs. split; [exact Hr|exact Hs].
Qed.

(** ** Claims about the orchestrator *)

(** C3. Whatever the outcome of [run_pipeline] (a result, nothing, or any
    exception of any stage), [cleanup] has run when it ends: [close] has been
    called on each session the pipeline object refers to, none of them is
    open, and no session that was closed before the run is open after it. *)
Theorem run_pipeline_always_cleans_up env tn cq limit s :
  exists r s' evs,
    run_pipeline env tn cq limit s = (r, s') /\
    trace s' = trace s ++ evs /\
    (forall h, snowflake_conn s' = Some h -> In (SfClose h) evs /\ h ∉ sf_live s') /\
    (forall h, duckdb_conn s' = Some h -> In (DuckClose h) evs /\ h ∉ duck_live s') /\
    sf_live s' ⊆ sf_live s /\ duck_live s' ⊆ duck_live s.
Proof.
  destruct (run_pipeline_eq env tn cq limit s)
    as (s' & evs & Hrun & (Hsf & Hdk & Hcs & Hcd) & _ & Htr & _ & Hes & Hed).
  exists (fst (run_result env tn cq limit)), s', (run_banner :: connect_events env ++ evs).
  split; [exact Hrun|]. split; [exact Htr|].
  assert (Hin : forall ev, In ev evs -> In ev (run_banner :: connect_events env ++ evs)).
  { intros ev Hev. right. apply in_or_app. right. exact Hev. }
  repeat split; auto.
Qed.

Lemma run_pipeline_always_cleans_up_witness :
  exists r s',
    run_pipeline unreachable (Some "ORDERS") None 1000 connected = (r, s') /\
    (forall h, snowflake_conn s' = Some h -> h ∉ sf_live s') /\
    sf_live s' ⊆ sf_live connected.
Proof.
  destruct (run_pipeline_always_cleans_up unreachable (Some "ORDERS") None 1000 connected)
    as (r & s' & evs & Hrun & _ & Hc & _ & Hs & _).
  exists r, s'. split; [exact Hrun|]. split; [|exact Hs].
  intros h Hh. apply (Hc h Hh).
Defined.

(** C4 (as stated, refuted). Both connection attempts fail with the
    driver's [OperationalError]; the caller receives a plain [Exception]
    with a fixed message instead. *)
Lemma run_pipeline_connection_error_replaced :
  sf_connect_fault unreachable true = Some network_down /\
  fst (run_pipeline unreachable (Some "ORDERS") None 1000 init)
    = Raise (Exception "Could not connect to Snowflake") /\
  Exception "Could not connect to Snowflake" <> network_down.
Proof. vm_compute. repeat split; discriminate. Qed.

(** C4 (amended). [run_pipeline] re-raises whatever its stages raise,
    unchanged. The error of a failing extraction and the error of a failing
    load reach the caller as the driver raised them. The error of a failing
    connection does not: whatever the driver raised, the caller receives an
    [Exception] whose message is fixed by the stage and names the side that
    could not be reached, as it receives one with a fixed message when the
    discovery finds no table. *)
Theorem run_pipeline_reraises env tn cq limit s :
  (forall e, fst (run_stages env tn cq limit s) = Raise e ->
             fst (run_pipeline env tn cq limit s) = Raise e) /\
  (forall q name e,
     remote_available env = true -> duck_connect_fault env = None ->
     target env tn cq = Some (q, name) ->
     sf_query env (limited_query q limit) = inl e ->
     fst (run_pipeline env tn cq limit s) = Raise e) /\
  (forall q name res e,
     remote_available env = true -> duck_connect_fault env = None ->
     target env tn cq = Some (q, name) ->
     sf_query env (limited_query q limit) = inr res ->
     df_empty (DataFrame_of res) = false ->
     fst (written env (DataFrame_of res) name) = Raise e ->
     fst (run_pipeline env tn cq limit s) = Raise e) /\
  (remote_available env = false ->
     fst (run_pipeline env tn cq limit s) = Raise (Exception "Could not connect to Snowflake")) /\
  (forall e,
     remote_available env = true -> duck_connect_fault env = Some e ->
     fst (run_pipeline env tn cq limit s) = Raise (Exception "Could not connect to DuckDB")) /\
  (remote_available env = true -> duck_connect_fault env = None ->
     target env tn cq = None ->
     fst (run_pipeline env tn cq limit s)
       = Raise (Exception "No tables found in Snowflake schema")).
Proof.
  rewrite run_pipeline_fst.
  split.
  { intros e He. destruct (run_stages_eq env tn cq limit s) as (s1 & evs & Hs & _).
    rewrite Hs in He. exact He. }
  unfold run_result, load_result.
  split.
  { intros q name e -> -> -> Hq. unfold extracted. rewrite Hq. reflexivity. }
  split.
  { intros q name res e -> -> -> Hq He Hw.
    rewrite (extracted_nonempty env q limit res Hq He), He.
    destruct (written env (DataFrame_of res) name) as [[b|e'] f]; simpl in Hw;
      [discriminate|]. simpl. congruence. }
  split; [intros ->; reflexivity|].
  split; [intros e -> ->; reflexivity|].
  intros -> -> ->. reflexivity.
Qed.

Lemma run_pipeline_reraises_witness :
  fst (run_pipeline warehouse (Some "MISSING") None 1000 init) = Raise sql_error.
Proof.
  destruct (run_pipeline_reraises warehouse (Some "MISSING") None 1000 init)
    as (_ & Hextract & _).
  apply (Hextract "SELECT * FROM MISSING" "missing" sql_error); reflexivity.
Defined.

(** C6. [connect_snowflake] first attempts the connection with strict
    verification. When that attempt goes through it is the only one. When
    it fails, the failure is logged as a warning and exactly one more
    attempt is made, in insecure mode; the call reports failure only when
    this second attempt fails too. When the relaxed attempt goes through,
    the run has the outcome and leaves the catalog that it would with a
    warehouse whose strict attempt succeeds, and the warning is in its
    log. *)
Theorem connect_snowflake_fallback env s :
  (sf_connect_fault env false = None ->
   exists evs,
     connect_snowflake env s = (Return true, with_remote s evs) /\
     connect_attempts evs = [false] /\ warnings evs = []) /\
  (forall e1,
     sf_connect_fault env false = Some e1 -> sf_connect_fault env true = None ->
     (exists evs,
        connect_snowflake env s = (Return true, with_remote s evs) /\
        connect_attempts evs = [false; true] /\
        warnings evs = ["SSL connection failed: " +:+ str e1]) /\
     (forall tn cq limit,
        fst (run_pipeline env tn cq limit s)
          = fst (run_pipeline (trusted env) tn cq limit s) /\
        tables (snd (run_pipeline env tn cq limit s))
          = tables (snd (run_pipeline (trusted env) tn cq limit s)) /\
        In (Log WARNING ("SSL connection failed: " +:+ str e1))
           (trace (snd (run_pipeline env tn cq limit s))))) /\
  (forall e1 e2,
     sf_connect_fault env false = Some e1 -> sf_connect_fault env true = Some e2 ->
     exists evs,
       connect_snowflake env s = (Return false, log_to s evs) /\
       connect_attempts evs = [false; true] /\
       warnings evs = ["SSL connection failed: " +:+ str e1]).
Proof.
  rewrite connect_snowflake_eq. unfold remote_available, connect_events.
  split; [|split].
  - intros ->. eexists. split; [reflexivity|]. split; reflexivity.
  - intros e1 H1 H2. split.
    + rewrite H1, H2. eexists. split; [reflexivity|]. split; reflexivity.
    + intros tn cq limit.
      assert (Hr : remote_available env = true)
        by (unfold remote_available; rewrite H1, H2; reflexivity).
      rewrite !run_pipeline_fst, !run_pipeline_tables, (run_result_trusted env _ _ _ Hr).
      split; [reflexivity|]. split; [reflexivity|].
      destruct (run_pipeline_eq env tn cq limit s) as (s' & evs & Hrun & _ & _ & Htr & _).
      rewrite Hrun. simpl. rewrite Htr. unfold connect_events. rewrite H1.
      apply in_or_app. right. simpl. auto.
  - intros e1 e2 H1 H2. rewrite H1, H2.
    eexists. split; [reflexivity|]. split; reflexivity.
Qed.

Lemma connect_snowflake_fallback_witness :
  (exists evs,
     connect_snowflake untrusted init = (Return true, with_remote init evs) /\
     connect_attempts evs = [false; true] /\
     warnings evs = ["SSL connection failed: certificate verify failed"]) /\
  fst (run_pipeline untrusted (Some "ORDERS") None 1000 init)
    = Return (Some (DataFrame_of orders)).
Proof.
  destruct (connect_snowflake_fallback untrusted init) as (_ & Hfall & _).
  destruct (Hfall ssl_error eq_refl eq_refl) as [Hconn Hrun].
  split; [exact Hconn|].
  destruct (Hrun (Some "ORDERS") None 1000%Z) as (Hfst & _).
  rewrite Hfst. vm_compute. reflexivity.
Defined.

(** C7. With neither a table name nor a query, on a warehouse both sessions
    reach: when the discovery reports no table, the run raises the
    exception "No tables found in Snowflake schema", sends no query and
    leaves the catalog as it was; when it reports tables, the first one in
    the reported order is taken, the query resolved is [SELECT * FROM] that
    table, the local name is the table name in lower case, and the only
    query the run sends is that query (with its limit). *)
Theorem run_pipeline_discovery env tn cq limit s rows names :
  PyStr.truthy tn = false -> PyStr.truthy cq = false ->
  remote_available env = true -> duck_connect_fault env = None ->
  sf_show env (show_tables_text env) = inr rows -> second_fields rows = Some names ->
  exists r s' evs,
    run_pipeline env tn cq limit s = (r, s') /\ trace s' = trace s ++ evs /\
    match names with
    | [] =>
        r = Raise (Exception "No tables found in Snowflake schema") /\
        sent_queries evs = [] /\ tables s' = tables s
    | t :: _ =>
        (forall s0, Ready s0 ->
           fst (resolve_target env tn cq s0) = Return ("SELECT * FROM " +:+ t, PyStr.lower t)) /\
        sent_queries evs = [limited_query ("SELECT * FROM " +:+ t) limit] /\
        (forall df, r = Return (Some df) ->
           tables s' !! clean_table_name (PyStr.lower t) = Some df)
    end.
Proof.
  intros Ht Hc Hr Hd Hshow Hnames.
  assert (Hdisc : discovered env = names)
    by (unfold discovered; rewrite Hshow, Hnames; reflexivity).
  pose proof (target_discovery env tn cq Ht Hc) as Htarget. rewrite Hdisc in Htarget.
  destruct (run_pipeline_eq env tn cq limit s)
    as (s' & evs & Hrun & _ & Htab & Htr & Hq & _).
  exists (fst (run_result env tn cq limit)), s', (run_banner :: connect_events env ++ evs).
  split; [exact Hrun|]. split; [exact Htr|].
  assert (Hsent : sent_queries (run_banner :: connect_events env ++ evs)
                  = run_queries env tn cq limit).
  { simpl. rewrite sent_queries_app, sent_queries_connect, Hq. reflexivity. }
  rewrite Hsent. unfold run_queries, load_queries. rewrite Hr, Hd, Htarget.
  rewrite Htab. unfold run_result, load_result. rewrite Hr, Hd, Htarget.
  destruct names as [|t rest].
  - repeat split; reflexivity.
  - split; [|split; [reflexivity|]].
    + intros s0 Hs0. destruct (resolve_target_ready env tn cq s0 Hs0) as (e0 & He0 & _).
      rewrite He0, Htarget. reflexivity.
    + intros df. destruct (extracted env _ limit) as [[d|]|e]; simpl; try discriminate.
      destruct (df_empty d) eqn:He; simpl; [discriminate|].
      pose proof (written_Return env d (PyStr.lower t)) as Hw.
      destruct (written env d (PyStr.lower t)) as [[[|]|e] f]; simpl in *; try discriminate.
      intros [= <-]. destruct (Hw true eq_refl) as [_ Hf]. rewrite Hf.
      apply lookup_insert_eq.
Qed.

Lemma run_pipeline_discovery_witness :
  exists r s' evs,
    run_pipeline warehouse None None 1000 init = (r, s') /\ trace s' = trace init ++ evs /\
    sent_queries evs = ["SELECT * FROM ORDERS LIMIT 1000"] /\
    (forall df, r = Return (Some df) -> tables s' !! "orders" = Some df).
Proof.
  destruct (run_pipeline_discovery warehouse None None 1000 init
              [["2024-01-01"; "ORDERS"; "DEMO_DB"]; ["2024-01-02"; "ARCHIVE"; "DEMO_DB"]]
              ["ORDERS"; "ARCHIVE"])
    as (r & s' & evs & Hrun & Htr & _ & Hq & Ht); try reflexivity.
  exists r, s', evs. split; [exact Hrun|]. split; [exact Htr|]. split; [exact Hq|exact Ht].
Defined.

(** C8. A second run with the same arguments on the same source, started on
    the store the first run left, has the outcome of the first run, hence
    the same result set with the same numbers of rows and columns, and
    leaves the store as the first run left it: when the runs return a
    result set, the target holds exactly that result set after the first run
    and after the second, so nothing is appended. *)
Theorem run_pipeline_idempotent env tn cq limit s r s1 s1' :
  run_pipeline env tn cq limit s = (r, s1) ->
  tables s1' = tables s1 ->
  exists s2,
    run_pipeline env tn cq limit s1' = (r, s2) /\
    tables s2 = tables s1 /\
    (forall df, r = Return (Some df) ->
       exists q name,
         target env tn cq = Some (q, name) /\
         tables s1 !! clean_table_name name = Some df /\
         tables s2 !! clean_table_name name = Some df).
Proof.
  intros Hrun Hsame.
  pose proof (run_pipeline_fst env tn cq limit s) as Hr1.
  pose proof (run_pipeline_tables env tn cq limit s) as Ht1.
  rewrite Hrun in Hr1, Ht1. simpl in Hr1, Ht1.
  destruct (run_pipeline_eq env tn cq limit s1') as (s2 & evs & Hrun2 & _ & Ht2 & _).
  assert (Htabs : tables s2 = tables s1).
  { rewrite Ht2, Hsame, Ht1. apply run_result_idem. }
  exists s2. split; [rewrite Hrun2, Hr1; reflexivity|]. split; [exact Htabs|].
  intros df ->. symmetry in Hr1.
  destruct (run_result_success env tn cq limit df Hr1)
    as (q & name & res & _ & _ & Htarget & _ & _ & _ & Hf).
  exists q, name. split; [exact Htarget|].
  rewrite Htabs, Ht1, Hf. split; apply lookup_insert_eq.
Qed.

Lemma run_pipeline_idempotent_witness :
  exists s1 s2,
    run_pipeline warehouse (Some "ORDERS") None 1000 init = (Return (Some (DataFrame_of orders)), s1) /\
    run_pipeline warehouse (Some "ORDERS") None 1000 s1 = (Return (Some (DataFrame_of orders)), s2) /\
    tables s2 = tables s1 /\
    tables s2 !! "orders" = Some (DataFrame_of orders).
Proof.
  pose (s1 := snd (run_pipeline warehouse (Some "ORDERS") None 1000 init)).
  assert (Hrun : run_pipeline warehouse (Some "ORDERS") None 1000 init
                 = (Return (Some (DataFrame_of orders)), s1)).
  { rewrite (surjective_pairing (run_pipeline _ _ _ _ _)). f_equal. }
  destruct (run_pipeline_idempotent warehouse (Some "ORDERS") None 1000 init _ s1 s1 Hrun eq_refl)
    as (s2 & Hrun2 & Htabs & Hdf).
  exists s1, s2. split; [exact Hrun|]. split; [exact Hrun2|]. split; [exact Htabs|].
  destruct (Hdf _ eq_refl) as (q & name & Htarget & _ & H2).
  injection Htarget as <- <-. exact H2.
Defined.

(** C9 (as stated, refuted). The table ARCHIVE has no row: the extractor
    answers with an empty result set and no error, and the run ends without
    an error, but what it returns is [None], not that result set. *)
Lemma run_pipeline_empty_returns_none :
  fst (read_snowflake_data warehouse "SELECT * FROM ARCHIVE" 1000 connected)
    = Return (Some DataFrame_new) /\
  fst (run_pipeline warehouse (Some "ARCHIVE") None 1000 init) = Return None /\
  Return None <> Return (Some DataFrame_new).
Proof. vm_compute. repeat split; discriminate. Qed.

(** C9 (amended). For the extractor an empty result is a valid outcome: it
    returns the empty result set, with no row and no column, and raises
    nothing. A run whose extraction yields no row ends without an error,
    loads nothing and returns [None]. A run that returns a result set
    returns the one it extracted, which has at least one row. *)
Theorem run_pipeline_returns_extracted env tn cq limit s :
  (forall q res s0,
     Ready s0 -> sf_query env (limited_query q limit) = inr res -> f_rows res = [] ->
     fst (read_snowflake_data env q limit s0) = Return (Some DataFrame_new)) /\
  (forall q name res,
     remote_available env = true -> duck_connect_fault env = None ->
     target env tn cq = Some (q, name) ->
     sf_query env (limited_query q limit) = inr res -> f_rows res = [] ->
     fst (run_pipeline env tn cq limit s) = Return None /\
     tables (snd (run_pipeline env tn cq limit s)) = tables s) /\
  (forall df,
     fst (run_pipeline env tn cq limit s) = Return (Some df) ->
     exists q name res,
       target env tn cq = Some (q, name) /\
       sf_query env (limited_query q limit) = inr res /\
       df = DataFrame_of res /\ (0 < df_len df)%nat).
Proof.
  split; [|split].
  - intros q res s0 Hs0 Hq Hrows.
    destruct (read_snowflake_data_ready env q limit s0 Hs0) as (evs & Hread & _).
    rewrite Hread. simpl. apply extracted_no_rows with res; assumption.
  - intros q name res Hr Hd Htarget Hq Hrows.
    rewrite run_pipeline_fst, run_pipeline_tables.
    unfold run_result, load_result.
    rewrite Hr, Hd, Htarget, (extracted_no_rows env q limit res Hq Hrows).
    split; reflexivity.
  - intros df Hdf. rewrite run_pipeline_fst in Hdf.
    destruct (run_result_success env tn cq limit df Hdf)
      as (q & name & res & _ & _ & Htarget & Hq & Hres & He & _).
    exists q, name, res. repeat split; try assumption.
    unfold df_empty in He. destruct (df_len df); [discriminate|lia].
Qed.

Lemma run_pipeline_returns_extracted_witness :
  fst (run_pipeline warehouse (Some "ARCHIVE") None 1000 init) = Return None /\
  tables (snd (run_pipeline warehouse (Some "ARCHIVE") None 1000 init)) = tables init.
Proof.
  destruct (run_pipeline_returns_extracted warehouse (Some "ARCHIVE") None 1000 init)
    as (_ & Hempty & _).
  apply (Hempty "SELECT * FROM ARCHIVE" "archive" no_rows); reflexivity.
Defined.

(** C10. [get_snowflake_tables] never raises and changes nothing but the
    log. It returns the empty list when no session is established, when
    the session is closed, when the discovery statement fails and when a
    reported row has no second field. In a run that has to discover its
    table, a failing discovery statement therefore ends the run with the
    exception "No tables found in Snowflake schema", as a schema without
    tables does. *)
Theorem get_snowflake_tables_total env s :
  exists names evs,
    get_snowflake_tables env s = (Return names, log_to s evs) /\
    sent_queries evs = [] /\
    (snowflake_conn s = None -> names = []) /\
    (forall h, snowflake_conn s = Some h -> is_live h (sf_live s) = false -> names = []) /\
    (forall e, sf_show env (show_tables_text env) = inl e -> names = []) /\
    (forall rows, sf_show env (show_tables_text env) = inr rows ->
                  second_fields rows = None -> names = []) /\
    (forall tn cq limit,
       PyStr.truthy tn = false -> PyStr.truthy cq = false ->
       remote_available env = true -> duck_connect_fault env = None ->
       (exists e, sf_show env (show_tables_text env) = inl e) \/
       sf_show env (show_tables_text env) = inr [] ->
       fst (run_pipeline env tn cq limit s)
         = Raise (Exception "No tables found in Snowflake schema")).
Proof.
  assert (Hrun : forall tn cq limit,
       PyStr.truthy tn = false -> PyStr.truthy cq = false ->
       remote_available env = true -> duck_connect_fault env = None ->
       (exists e, sf_show env (show_tables_text env) = inl e) \/
       sf_show env (show_tables_text env) = inr [] ->
       fst (run_pipeline env tn cq limit s)
         = Raise (Exception "No tables found in Snowflake schema")).
  { intros tn cq limit Ht Hc Hr Hd Hshow.
    rewrite run_pipeline_fst. unfold run_result, load_result.
    rewrite Hr, Hd, (target_discovery env tn cq Ht Hc). unfold discovered.
    destruct Hshow as [[e ->]| ->]; reflexivity. }
  destruct (snowflake_conn s) as [h|] eqn:Hc.
  - destruct (is_live h (sf_live s)) eqn:Hl.
    + exists (discovered env), (discovery_events env).
      split; [apply get_snowflake_tables_live with h; assumption|].
      split; [apply sent_queries_discovery|].
      unfold discovered.
      split; [intros [=]|].
      split; [intros h0 [= <-] Hf; congruence|].
      split; [intros e ->; reflexivity|].
      split; [intros rows -> ->; reflexivity|exact Hrun].
    + eexists [], _. split; [apply get_snowflake_tables_stale with h; assumption|].
      repeat split; auto.
  - eexists [], _. split; [apply get_snowflake_tables_unset; assumption|].
    repeat split; auto.
Qed.

Lemma get_snowflake_tables_total_witness :
  fst (run_pipeline no_grants None None 1000 init)
    = Raise (Exception "No tables found in Snowflake schema") /\
  fst (run_pipeline empty_schema None None 1000 init)
    = Raise (Exception "No tables found in Snowflake schema").
Proof.
  split.
  - destruct (get_snowflake_tables_total no_grants init) as (names & evs & _ & _ & _ & _ & _ & _ & Hrun).
    apply Hrun; try reflexivity. left. exists sql_error. reflexivity.
  - destruct (get_snowflake_tables_total empty_schema init) as (names & evs & _ & _ & _ & _ & _ & _ & Hrun).
    apply Hrun; try reflexivity. right. reflexivity.
Defined.

(** * Further properties of the code *)

(** ** Strings *)

Lemma map_chars_length f s : String.length (PyStr.map_chars f s) = String.length s.
Proof. induction s as [|c s IH]; simpl; [reflexivity|]. rewrite IH. reflexivity. Qed.

Lemma map_chars_get f s n :
  String.get n (PyStr.map_chars f s) = option_map f (String.get n s).
Proof.
  revert n. induction s as [|c s IH]; intros n; simpl; [reflexivity|].
  destruct n; [reflexivity|apply IH].
Qed.

Lemma map_chars_compose f g s :
  PyStr.map_chars f (PyStr.map_chars g s) = PyStr.map_chars (fun c => f (g c)) s.
Proof. induction s as [|c s IH]; simpl; [reflexivity|]. rewrite IH. reflexivity. Qed.

Lemma map_chars_ext f g s :
  (forall c, f c = g c) -> PyStr.map_chars f s = PyStr.map_chars g s.
Proof. intros H. induction s as [|c s IH]; simpl; [reflexivity|]. rewrite H, IH. reflexivity. Qed.

Lemma map_chars_app f a b :
  PyStr.map_chars f (a +:+ b) = PyStr.map_chars f a +:+ PyStr.map_chars f b.
Proof. induction a as [|c a IH]; simpl; [reflexivity|]. rewrite IH. reflexivity. Qed.

Lemma clean_table_name_map t :
  clean_table_name t = PyStr.map_chars sanitized_char t.
Proof.
  unfold clean_table_name, PyStr.replace. rewrite !map_chars_compose.
  apply map_chars_ext. intros c. unfold sanitized_char.
  destruct (Ascii.eqb c "-") eqn:E1; simpl.
  - reflexivity.
  - destruct (Ascii.eqb c " ") eqn:E2; simpl; [reflexivity|].
    destruct (Ascii.eqb c "."); reflexivity.
Qed.

Lemma sanitized_char_clean c :
  sanitized_char c <> "-"%char /\ sanitized_char c <> " "%char /\ sanitized_char c <> "."%char.
Proof.
  unfold sanitized_char.
  destruct (Ascii.eqb c "-") eqn:E1; simpl; [repeat split; discriminate|].
  destruct (Ascii.eqb c " ") eqn:E2; simpl; [repeat split; discriminate|].
  destruct (Ascii.eqb c ".") eqn:E3; simpl; [repeat split; discriminate|].
  apply Ascii.eqb_neq in E1, E2, E3. repeat split; assumption.
Qed.

Lemma sanitized_char_idem c : sanitized_char (sanitized_char c) = sanitized_char c.
Proof.
  destruct (sanitized_char_clean c) as (H1 & H2 & H3).
  apply Ascii.eqb_neq in H1, H2, H3.
  unfold sanitized_char at 1. rewrite H1, H2, H3. reflexivity.
Qed.

(** X1. [clean_table_name] keeps the length of the name and the position of
    every character; a hyphen, a space or a period becomes an underscore and
    every other character, whatever it is, stays as it is. The result holds
    none of the three characters. *)
Theorem clean_table_name_pointwise t :
  String.length (clean_table_name t) = String.length t /\
  (forall n, String.get n (clean_table_name t) = option_map sanitized_char (String.get n t)) /\
  (forall n c, String.get n (clean_table_name t) = Some c ->
               c <> "-"%char /\ c <> " "%char /\ c <> "."%char).
Proof.
  rewrite clean_table_name_map. split; [apply map_chars_length|].
  split; [intros n; apply map_chars_get|].
  intros n c. rewrite map_chars_get.
  destruct (String.get n t) as [c0|]; simpl; [|discriminate].
  intros [= <-]. apply sanitized_char_clean.
Qed.

Lemma clean_table_name_pointwise_witness :
  String.get 2 (clean_table_name "My-Table.v2") = Some "_"%char /\
  ("_"%char <> "-"%char /\ "_"%char <> " "%char /\ "_"%char <> "."%char).
Proof.
  destruct (clean_table_name_pointwise "My-Table.v2") as (_ & Hget & Hclean).
  split; [rewrite Hget; reflexivity|].
  apply (Hclean 2%nat). rewrite Hget. reflexivity.
Defined.

(** X2. Sanitizing a name twice is sanitizing it once, and a name without
    hyphen, space and period is its own sanitized name. *)
Theorem clean_table_name_idempotent t :
  clean_table_name (clean_table_name t) = clean_table_name t /\
  ((forall n c, String.get n t = Some c ->
                c <> "-"%char /\ c <> " "%char /\ c <> "."%char) ->
   clean_table_name t = t).
Proof.
  rewrite !clean_table_name_map. split.
  - rewrite map_chars_compose. apply map_chars_ext, sanitized_char_idem.
  - induction t as [|c t IH]; intros H; simpl; [reflexivity|].
    rewrite IH by (intros n c' Hn; apply (H (S n)); exact Hn).
    destruct (H 0%nat c eq_refl) as (H1 & H2 & H3).
    unfold sanitized_char.
    apply Ascii.eqb_neq in H1, H2, H3. rewrite H1, H2, H3. reflexivity.
Qed.

Lemma clean_table_name_idempotent_witness :
  clean_table_name "orders_2024" = "orders_2024".
Proof.
  destruct (clean_table_name_idempotent "orders_2024") as [_ Hid].
  apply Hid. intros n c Hget.
  do 11 (destruct n as [|n]; [injection Hget as <-; repeat split; discriminate|]).
  discriminate.
Defined.

Lemma contains_app_r needle a b :
  PyStr.contains needle b = true -> PyStr.contains needle (a +:+ b) = true.
Proof.
  intros H. induction a as [|c a IH]; [exact H|].
  change (String c a +:+ b) with (String c (a +:+ b)).
  cbn [PyStr.contains]. rewrite IH. apply orb_true_r.
Qed.

Lemma limit_keyword_found y : PyStr.contains "LIMIT" (" LIMIT " +:+ y) = true.
Proof. reflexivity. Qed.

Lemma limited_query_has_limit q l :
  PyStr.contains "LIMIT" (PyStr.upper (limited_query q l)) = true.
Proof.
  unfold limited_query.
  destruct (PyStr.contains "LIMIT" (PyStr.upper q)) eqn:E; simpl; [exact E|].
  unfold PyStr.upper. rewrite map_chars_app. apply contains_app_r.
  rewrite map_chars_app. apply limit_keyword_found.
Qed.

(** X3. The text [read_snowflake_data] hands to the cursor always contains
    the letters LIMIT, in some letter case; the guard applied to that text,
    with any limit, leaves it as it is. *)
Theorem limited_query_idempotent q l l' :
  PyStr.contains "LIMIT" (PyStr.upper (limited_query q l)) = true /\
  limited_query (limited_query q l) l' = limited_query q l.
Proof.
  split; [apply limited_query_has_limit|].
  unfold limited_query at 1. rewrite limited_query_has_limit. reflexivity.
Qed.

Lemma rstrip_decompose c s :
  exists n, s = PyStr.rstrip c s +:+ repeat_char c n.
Proof.
  induction s as [|a s IH].
  - exists 0%nat. reflexivity.
  - destruct IH as [n IH]. cbn [PyStr.rstrip].
    destruct (PyStr.rstrip c s) as [|b r] eqn:Hr.
    + destruct (Ascii.eqb a c) eqn:Ea.
      * apply Ascii.eqb_eq in Ea. subst a. exists (S n). rewrite IH at 1. reflexivity.
      * exists n. rewrite IH at 1. reflexivity.
    + exists n. rewrite IH at 1. reflexivity.
Qed.

Lemma rstrip_no_trailing c s p : PyStr.rstrip c s <> p +:+ String c EmptyString.
Proof.
  revert p. induction s as [|a s IH]; intros p.
  - destruct p; discriminate.
  - cbn [PyStr.rstrip]. destruct (PyStr.rstrip c s) as [|b r] eqn:Hr.
    + destruct (Ascii.eqb a c) eqn:Ea.
      * destruct p; discriminate.
      * apply Ascii.eqb_neq in Ea. destruct p as [|x [|y p]]; try discriminate.
        intros [= ->]. congruence.
    + destruct p as [|x p]; [discriminate|].
      intros [= -> Hp]. exact (IH p Hp).
Qed.

(** X4. When the query text does not contain the letters LIMIT, what is
    dropped before the limit is appended is exactly the run of semicolons at
    the end of the query: the text sent is the query without that run, which
    does not end in a semicolon, followed by [" LIMIT "] and the limit in
    decimal. *)
Theorem limited_query_strips_semicolons q l :
  PyStr.contains "LIMIT" (PyStr.upper q) = false ->
  exists body n,
    q = body +:+ repeat_char ";" n /\
    (forall p, body <> p +:+ ";") /\
    limited_query q l = body +:+ " LIMIT " +:+ pretty l.
Proof.
  intros H. destruct (rstrip_decompose ";" q) as [n Hn].
  exists (PyStr.rstrip ";" q), n. split; [exact Hn|].
  split; [intros p; apply rstrip_no_trailing|].
  unfold limited_query. rewrite H. reflexivity.
Qed.

Lemma limited_query_strips_semicolons_witness :
  exists body n,
    "SELECT 1; SELECT 2;;" = body +:+ repeat_char ";" n /\
    (forall p, body <> p +:+ ";") /\
    limited_query "SELECT 1; SELECT 2;;" 7 = body +:+ " LIMIT " +:+ pretty 7%Z.
Proof. apply (limited_query_strips_semicolons "SELECT 1; SELECT 2;;" 7). reflexivity. Defined.

(** ** Discovery *)

Lemma second_fields_all rows :
  second_fields rows =
    if forallb (fun row => (2 <=? length row)%nat) rows
    then Some (map (fun row => nth 1 row "") rows)
    else None.
Proof.
  induction rows as [|row rows IH]; [reflexivity|].
  cbn [second_fields forallb map]. rewrite IH.
  destruct row as [|a [|b row]]; try reflexivity.
  cbn. destruct (forallb _ rows); reflexivity.
Qed.

(** X5. On an open session whose discovery statement is answered,
    [get_snowflake_tables] returns the second field of every reported row,
    in the reported order, when every row has at least two fields; one row
    with fewer fields makes it return the empty list, whatever the other
    rows hold. *)
Theorem get_snowflake_tables_second_column env s h rows :
  snowflake_conn s = Some h -> is_live h (sf_live s) = true ->
  sf_show env (show_tables_text env) = inr rows ->
  fst (get_snowflake_tables env s) =
    Return (if forallb (fun row => (2 <=? length row)%nat) rows
            then map (fun row => nth 1 row "") rows
            else []).
Proof.
  intros Hc Hl Hshow. rewrite (get_snowflake_tables_live env s h Hc Hl). simpl.
  unfold discovered. rewrite Hshow, second_fields_all.
  destruct (forallb _ rows); reflexivity.
Qed.

Lemma get_snowflake_tables_second_column_witness :
  fst (get_snowflake_tables warehouse connected) = Return ["ORDERS"; "ARCHIVE"].
Proof.
  apply (get_snowflake_tables_second_column warehouse connected 0%nat
           [["2024-01-01"; "ORDERS"; "DEMO_DB"]; ["2024-01-02"; "ARCHIVE"; "DEMO_DB"]]);
    reflexivity.
Defined.

(** ** The loader, on every state *)

Section Loader_cases.

Variable env : Env.

(** The four ways a write of a non-empty result set on an open session
    ends, by the first statement the store rejects. *)
Lemma write_to_duckdb_cases s h df t :
  duckdb_conn s = Some h -> is_live h (duck_live s) = true -> df_empty df = false ->
  exists evs,
    write_to_duckdb env df t s =
      match duck_fault env (sql (DropTableIfExists (clean_table_name t))) with
      | Some e => (Raise e, amend s (tables s) (views s) evs)
      | None =>
          match duck_fault env (sql (CreateTableAsSelect (clean_table_name t)
                                       (clean_table_name t +:+ "_temp"))) with
          | Some e =>
              (Raise e,
               amend s (delete (clean_table_name t) (tables s))
                       (<[clean_table_name t +:+ "_temp" := df]> (views s)) evs)
          | None =>
              match duck_fault env (sql (SelectCount (clean_table_name t))) with
              | Some e =>
                  (Raise e,
                   amend s (<[clean_table_name t := df]> (delete (clean_table_name t) (tables s)))
                           (delete (clean_table_name t +:+ "_temp")
                              (<[clean_table_name t +:+ "_temp" := df]> (views s))) evs)
              | None =>
                  (Return true,
                   amend s (<[clean_table_name t := df]> (delete (clean_table_name t) (tables s)))
                           (delete (clean_table_name t +:+ "_temp")
                              (<[clean_table_name t +:+ "_temp" := df]> (views s))) evs)
              end
          end
      end.
Proof.
  intros Hc Hl He. unfold write_to_duckdb, sql. py_run.
  destruct (duck_fault env ("DROP TABLE IF EXISTS " +:+ clean_table_name t)) as [e|];
    repeat py_step; [eexists; py_done|].
  destruct (duck_fault env _) as [e|]; repeat py_step; [eexists; py_done|].
  destruct (duck_fault env _) as [e|]; repeat py_step; eexists; py_done.
Qed.

(** Whatever the state, a write ends in the state it started from, up to the
    catalog, the staging bindings and the log. *)
Lemma write_to_duckdb_any s df t :
  exists r T V evs,
    write_to_duckdb env df t s = (r, amend s T V evs) /\
    (T = tables s \/ T = delete (clean_table_name t) (tables s) \/
     T = <[clean_table_name t := df]> (delete (clean_table_name t) (tables s))) /\
    (V = views s \/ V = <[clean_table_name t +:+ "_temp" := df]> (views s) \/
     V = delete (clean_table_name t +:+ "_temp")
           (<[clean_table_name t +:+ "_temp" := df]> (views s))).
Proof.
  destruct (duckdb_conn s) as [h|] eqn:Hc.
  2:{ eexists _, (tables s), (views s), _. split; [unfold write_to_duckdb; py_run; py_done|].
      split; left; reflexivity. }
  destruct (df_empty df) eqn:He.
  { eexists _, (tables s), (views s), _. split; [unfold write_to_duckdb; py_run; py_done|].
    split; left; reflexivity. }
  destruct (is_live h (duck_live s)) eqn:Hl.
  2:{ eexists _, (tables s), (views s), _. split; [unfold write_to_duckdb; py_run; py_done|].
      split; left; reflexivity. }
  destruct (write_to_duckdb_cases s h df t Hc Hl He) as [evs Hw]. rewrite Hw.
  destruct (duck_fault env _) as [e|].
  { eexists _, _, _, _. split; [reflexivity|]. split; left; reflexivity. }
  destruct (duck_fault env _) as [e|].
  { eexists _, _, _, _. split; [reflexivity|]. split; right; left; reflexivity. }
  destruct (duck_fault env _) as [e|];
    (eexists _, _, _, _; split; [reflexivity|]; split; right; right; reflexivity).
Qed.

End Loader_cases.

(** X6. When the sanitized target is a name the store reads as one
    identifier, [write_to_duckdb] never changes a table whose name differs
    from it by more than letter case, and never a staging binding whose
    name so differs from the target's own; it opens and closes no session
    and leaves the fields of the pipeline object alone. This holds on every
    state and for every outcome, failures included. *)
Theorem write_to_duckdb_frame env s df t :
  plain_identifier (clean_table_name t) = true ->
  let s' := snd (write_to_duckdb env df t s) in
  (forall name, PyStr.lower name <> PyStr.lower (clean_table_name t) ->
                tables s' !! name = tables s !! name) /\
  (forall name, PyStr.lower name <> PyStr.lower (clean_table_name t +:+ "_temp") ->
                views s' !! name = views s !! name) /\
  sf_live s' = sf_live s /\ duck_live s' = duck_live s /\
  snowflake_conn s' = snowflake_conn s /\ duckdb_conn s' = duckdb_conn s.
Proof.
  intros _.
  destruct (write_to_duckdb_any env s df t) as (r & T & V & evs & Hw & HT & HV).
  rewrite Hw. simpl. split; [|split; [|repeat split]].
  - intros name Hn. destruct HT as [->|[->| ->]]; [reflexivity| |].
    + apply lookup_delete_ne. congruence.
    + rewrite lookup_insert_ne by congruence. apply lookup_delete_ne. congruence.
  - intros name Hn. destruct HV as [->|[->| ->]]; [reflexivity| |].
    + apply lookup_insert_ne. congruence.
    + rewrite lookup_delete_ne by congruence. apply lookup_insert_ne. congruence.
Qed.

Lemma write_to_duckdb_frame_witness :
  plain_identifier (clean_table_name "Daily-Orders") = true /\
  tables (snd (write_to_duckdb warehouse (DataFrame_of orders) "Daily-Orders" loaded)) !! "orders"
  = tables loaded !! "orders".
Proof.
  split; [reflexivity|].
  destruct (write_to_duckdb_frame warehouse loaded (DataFrame_of orders) "Daily-Orders" eq_refl)
    as [Hf _].
  apply Hf. vm_compute. discriminate.
Defined.

(** X7. A write of a non-empty result set on an open session that the store
    stops half way: when the DROP statement is rejected, the error is raised
    and catalog and staging bindings are as before; when DROP goes through
    and the CREATE statement is rejected, the error is raised, the target is
    no longer in the catalog, whatever it held, and the staging binding is
    left registered. *)
Theorem write_to_duckdb_interrupted env s h df t e :
  duckdb_conn s = Some h -> is_live h (duck_live s) = true -> df_empty df = false ->
  (duck_fault env (sql (DropTableIfExists (clean_table_name t))) = Some e ->
   exists s',
     write_to_duckdb env df t s = (Raise e, s') /\
     tables s' = tables s /\ views s' = views s) /\
  (duck_fault env (sql (DropTableIfExists (clean_table_name t))) = None ->
   duck_fault env (sql (CreateTableAsSelect (clean_table_name t)
                          (clean_table_name t +:+ "_temp"))) = Some e ->
   exists s',
     write_to_duckdb env df t s = (Raise e, s') /\
     tables s' !! clean_table_name t = None /\
     views s' !! (clean_table_name t +:+ "_temp") = Some df).
Proof.
  intros Hc Hl He.
  destruct (write_to_duckdb_cases env s h df t Hc Hl He) as [evs Hw].
  split.
  - intros Hd. rewrite Hd in Hw. eexists. split; [exact Hw|]. split; reflexivity.
  - intros Hd Hcr. rewrite Hd, Hcr in Hw. eexists. split; [exact Hw|]. simpl.
    split; [apply lookup_delete_eq|apply lookup_insert_eq].
Qed.

(** X8. Once DROP and CREATE went through, the target is in the catalog
    with as many rows as the written result set and the staging binding is
    released, whether or not the verifying COUNT is accepted: when it is
    rejected the call raises that error although the table has been
    replaced. *)
Theorem write_to_duckdb_after_create env s h df t :
  duckdb_conn s = Some h -> is_live h (duck_live s) = true -> df_empty df = false ->
  duck_fault env (sql (DropTableIfExists (clean_table_name t))) = None ->
  duck_fault env (sql (CreateTableAsSelect (clean_table_name t)
                         (clean_table_name t +:+ "_temp"))) = None ->
  exists r s',
    write_to_duckdb env df t s = (r, s') /\
    (exists stored, tables s' !! clean_table_name t = Some stored /\
                    df_len stored = df_len df) /\
    views s' !! (clean_table_name t +:+ "_temp") = None /\
    r = match duck_fault env (sql (SelectCount (clean_table_name t))) with
        | Some e => Raise e
        | None => Return true
        end.
Proof.
  intros Hc Hl He Hd Hcr.
  destruct (write_to_duckdb_cases env s h df t Hc Hl He) as [evs Hw].
  rewrite Hd, Hcr in Hw.
  destruct (duck_fault env (sql (SelectCount (clean_table_name t)))) as [e|];
    (eexists _, _; split; [exact Hw|]; simpl;
     split; [exists df; split; [apply lookup_insert_eq|reflexivity]
            |split; [apply lookup_delete_eq|reflexivity]]).
Qed.

(** X9. Without an established session the extractor and the loader raise
    before anything else: [read_snowflake_data] sends no query, and
    [write_to_duckdb] sends no statement and raises even for an empty result
    set, for which it would return [False] on an established session. Only
    the log changes. *)
Theorem no_session_raises env s :
  (snowflake_conn s = None ->
   forall q limit,
     exists evs,
       read_snowflake_data env q limit s
       = (Raise (Exception "Snowflake connection not established"), log_to s evs) /\
       sent_queries evs = []) /\
  (duckdb_conn s = None ->
   forall df t,
     exists evs,
       write_to_duckdb env df t s
       = (Raise (Exception "DuckDB connection not established"), log_to s evs) /\
       store_statements evs = []).
Proof.
  split.
  - intros Hc q limit. eexists. split; [unfold read_snowflake_data; py_run; py_done|].
    reflexivity.
  - intros Hc df t. eexists. split; [unfold write_to_duckdb; py_run; py_done|].
    reflexivity.
Qed.

Lemma write_to_duckdb_interrupted_witness :
  tables loaded !! "orders" = Some (DataFrame_of one_order) /\
  exists s',
    write_to_duckdb read_only_store (DataFrame_of orders) "orders" loaded
    = (Raise (Exn "IOException" "Cannot write: disk full"), s') /\
    tables s' !! "orders" = None /\
    views s' !! "orders_temp" = Some (DataFrame_of orders).
Proof.
  split; [reflexivity|].
  destruct (write_to_duckdb_interrupted read_only_store loaded 1%nat (DataFrame_of orders)
              "orders" (Exn "IOException" "Cannot write: disk full"))
    as [_ Hcreate]; [reflexivity|vm_compute; reflexivity|reflexivity|].
  apply Hcreate; reflexivity.
Defined.

Lemma write_to_duckdb_after_create_witness :
  exists r s',
    write_to_duckdb warehouse (DataFrame_of orders) "orders" loaded = (r, s') /\
    (exists stored, tables s' !! "orders" = Some stored /\ df_len stored = 3%nat) /\
    views s' !! "orders_temp" = None /\ r = Return true.
Proof.
  apply (write_to_duckdb_after_create warehouse loaded 1%nat (DataFrame_of orders) "orders");
    reflexivity.
Defined.

Lemma no_session_raises_witness :
  exists evs,
    write_to_duckdb warehouse DataFrame_new "orders" init
    = (Raise (Exception "DuckDB connection not established"), log_to init evs) /\
    store_statements evs = [].
Proof.
  destruct (no_session_raises warehouse init) as [_ Hw].
  apply (Hw eq_refl DataFrame_new "orders").
Defined.

(** ** The run *)

Section Run_extras.

Variable env : Env.

Lemma written_frame df t T name :
  name <> clean_table_name t -> snd (written env df t) T !! name = T !! name.
Proof.
  intros Hn. unfold written.
  destruct (duck_fault env _); simpl; [reflexivity|].
  destruct (duck_fault env _); simpl; [apply lookup_delete_ne; congruence|].
  destruct (duck_fault env _); simpl;
    (rewrite lookup_insert_ne by congruence; apply lookup_delete_ne; congruence).
Qed.

Lemma written_rejected df t :
  (exists b, fst (written env df t) = Return b) \/
  exists q e,
    In q (loader_statements (clean_table_name t)) /\
    duck_fault env (sql q) = Some e /\ fst (written env df t) = Raise e.
Proof.
  unfold written, loader_statements.
  destruct (duck_fault env (sql (DropTableIfExists _))) as [e|] eqn:E1;
    [right; eexists _, e; split; [left; reflexivity|split; [exact E1|reflexivity]]|].
  destruct (duck_fault env (sql (CreateTableAsSelect _ _))) as [e|] eqn:E2;
    [right; eexists _, e; split; [right; left; reflexivity|split; [exact E2|reflexivity]]|].
  destruct (duck_fault env (sql (SelectCount _))) as [e|] eqn:E3;
    [right; eexists _, e;
     split; [right; right; left; reflexivity|split; [exact E3|reflexivity]]|].
  left. exists true. reflexivity.
Qed.

(** A run in one statement: outcome, catalog, queries sent. *)
Lemma run_pipeline_summary tn cq limit s :
  exists s' evs,
    run_pipeline env tn cq limit s = (fst (run_result env tn cq limit), s') /\
    tables s' = snd (run_result env tn cq limit) (tables s) /\
    trace s' = trace s ++ evs /\
    sent_queries evs = run_queries env tn cq limit.
Proof.
  destruct (run_pipeline_eq env tn cq limit s) as (s' & evs & Hrun & _ & Ht & Htr & Hq & _).
  exists s', (run_banner :: connect_events env ++ evs).
  split; [exact Hrun|]. split; [exact Ht|]. split; [exact Htr|].
  simpl. rewrite sent_queries_app, sent_queries_connect, Hq. reflexivity.
Qed.

End Run_extras.

(** X10. A custom query takes precedence over a table name. With a
    non-empty custom query the resolver answers with that query, verbatim,
    and the local name [custom_query_result], without a discovery call and
    without touching the state; the run is the same whatever table name it
    is given, the only query it sends once both sessions are open is the
    custom query under the limit guard, and a run that returns a result set
    has stored it in table [custom_query_result]. *)
Theorem run_pipeline_custom_query env tn q limit s :
  q <> "" ->
  (forall s0, resolve_target env tn (Some q) s0 = (Return (q, "custom_query_result"), s0)) /\
  (forall tn', run_pipeline env tn' (Some q) limit s = run_pipeline env tn (Some q) limit s) /\
  exists r s' evs,
    run_pipeline env tn (Some q) limit s = (r, s') /\
    trace s' = trace s ++ evs /\
    (remote_available env = true -> duck_connect_fault env = None ->
     sent_queries evs = [limited_query q limit]) /\
    (forall df, r = Return (Some df) -> tables s' !! "custom_query_result" = Some df).
Proof.
  intros Hq. destruct q as [|a q]; [contradiction|].
  split; [reflexivity|]. split; [reflexivity|].
  destruct (run_pipeline_summary env tn (Some (String a q)) limit s)
    as (s' & evs & Hrun & Ht & Htr & Hsent).
  eexists _, s', evs. split; [exact Hrun|]. split; [exact Htr|]. split.
  - intros Hr Hd. rewrite Hsent. unfold run_queries. rewrite Hr, Hd. reflexivity.
  - intros df Hdf.
    destruct (run_result_success env tn (Some (String a q)) limit df Hdf)
      as (q0 & name & res & _ & _ & Htarget & _ & _ & _ & Hf).
    injection Htarget as <- <-. rewrite Ht, Hf. apply lookup_insert_eq.
Qed.

Lemma run_pipeline_custom_query_witness :
  run_pipeline warehouse (Some "ARCHIVE") (Some "SELECT * FROM ORDERS") 1000 init
  = run_pipeline warehouse None (Some "SELECT * FROM ORDERS") 1000 init.
Proof.
  destruct (run_pipeline_custom_query warehouse None "SELECT * FROM ORDERS" 1000 init)
    as (_ & Hsame & _); [discriminate|].
  apply Hsame.
Defined.

(** X11. A run changes the catalog only by loading: after a run that did
    not return a result set, the catalog is as it was before the run, unless
    the run raised the error with which the store rejected one of the three
    statements of the loader on the resolved target. *)
Theorem run_pipeline_no_result_no_change env tn cq limit s :
  exists r s',
    run_pipeline env tn cq limit s = (r, s') /\
    ((exists df, r = Return (Some df)) \/
     tables s' = tables s \/
     (exists query name q e,
        target env tn cq = Some (query, name) /\
        In q (loader_statements (clean_table_name name)) /\
        duck_fault env (sql q) = Some e /\ r = Raise e)).
Proof.
  destruct (run_pipeline_summary env tn cq limit s) as (s' & evs & Hrun & Ht & _).
  eexists _, s'. split; [exact Hrun|]. rewrite Ht.
  unfold run_result. destruct (remote_available env); [|right; left; reflexivity].
  destruct (duck_connect_fault env); [right; left; reflexivity|].
  unfold load_result.
  destruct (target env tn cq) as [[q name]|]; [|right; left; reflexivity].
  destruct (extracted env q limit) as [[d|]|e]; try (right; left; reflexivity).
  destruct (df_empty d); [right; left; reflexivity|].
  pose proof (written_Return env d name) as Hw.
  destruct (written_rejected env d name) as [[b Hb]|(q0 & e & Hin & Hf & He)].
  - destruct (written env d name) as [[[|]|e] f]; simpl in *; try discriminate.
    + left. eexists. reflexivity.
    + destruct (Hw false eq_refl) as [Hfalse _]. discriminate.
  - destruct (written env d name) as [[b|e'] f]; simpl in *; [discriminate|].
    right. right. exists q, name, q0, e. repeat split; try assumption. congruence.
Qed.

(** X12. When the sanitized name of the target a run resolves is a name
    the store reads as one identifier, the run never changes a table whose
    name differs from it by more than letter case; a run that resolves no
    target changes no table. This holds for every outcome of the run. *)
Theorem run_pipeline_frame env tn cq limit s name :
  (forall query tname, target env tn cq = Some (query, tname) ->
                       plain_identifier (clean_table_name tname) = true /\
                       PyStr.lower name <> PyStr.lower (clean_table_name tname)) ->
  tables (snd (run_pipeline env tn cq limit s)) !! name = tables s !! name.
Proof.
  intros Hn. rewrite run_pipeline_tables.
  unfold run_result. destruct (remote_available env); [|reflexivity].
  destruct (duck_connect_fault env); [reflexivity|].
  unfold load_result.
  destruct (target env tn cq) as [[q tname]|]; [|reflexivity].
  destruct (extracted env q limit) as [[d|]|e]; try reflexivity.
  destruct (df_empty d); [reflexivity|].
  assert (Hne : name <> clean_table_name tname).
  { destruct (Hn q tname eq_refl) as [_ Hl]. congruence. }
  pose proof (written_frame env d tname (tables s) name Hne) as Hf.
  destruct (written env d tname) as [[[|]|e] f]; exact Hf.
Qed.

Lemma run_pipeline_frame_witness :
  fst (run_pipeline warehouse None (Some "SELECT * FROM ORDERS") 1000 loaded)
  = Return (Some (DataFrame_of orders)) /\
  tables (snd (run_pipeline warehouse None (Some "SELECT * FROM ORDERS") 1000 loaded)) !! "orders"
  = tables loaded !! "orders".
Proof.
  split; [vm_compute; reflexivity|].
  apply run_pipeline_frame. intros query tname [= <- <-].
  split; [reflexivity|vm_compute; discriminate].
Defined.

(** ** Cleanup *)

Lemma released_twice (h : handle) (L : gset handle) : released h (released h L) = released h L.
Proof.
  unfold released. apply set_eq. intros x.
  rewrite !elem_of_difference. tauto.
Qed.

(** X13. [cleanup] never raises, whatever the two [close] calls do, and
    leaves catalog and staging bindings alone. It does not reset the fields
    of the pipeline object: a second [cleanup] calls [close] again on the
    same sessions, and the sessions that are open stay the same. *)
Theorem cleanup_twice env s :
  exists s1 s2 evs1 evs2,
    cleanup env s = (Return tt, s1) /\ cleanup env s1 = (Return tt, s2) /\
    trace s1 = trace s ++ evs1 /\ trace s2 = trace s1 ++ evs2 /\
    snowflake_conn s2 = snowflake_conn s /\ duckdb_conn s2 = duckdb_conn s /\
    (forall h, snowflake_conn s = Some h -> In (SfClose h) evs1 /\ In (SfClose h) evs2) /\
    (forall h, duckdb_conn s = Some h -> In (DuckClose h) evs1 /\ In (DuckClose h) evs2) /\
    sf_live s2 = sf_live s1 /\ duck_live s2 = duck_live s1 /\
    tables s2 = tables s /\ views s2 = views s.
Proof.
  destruct (cleanup_eq env s) as (evs1 & H1 & _ & _ & Hsf1 & Hdk1).
  match type of H1 with _ = (_, ?st) => set (s1 := st) in * end.
  destruct (cleanup_eq env s1) as (evs2 & H2 & _ & _ & Hsf2 & Hdk2).
  eexists s1, _, evs1, evs2. split; [exact H1|]. split; [exact H2|].
  subst s1. simpl in *. repeat split; auto.
  - destruct (snowflake_conn s); [apply released_twice|reflexivity].
  - destruct (duckdb_conn s); [apply released_twice|reflexivity].
Qed.

Lemma cleanup_twice_witness :
  exists s1 s2,
    cleanup warehouse connected = (Return tt, s1) /\ cleanup warehouse s1 = (Return tt, s2) /\
    sf_live s2 = sf_live s1 /\
    (exists evs2, trace s2 = trace s1 ++ evs2 /\ In (SfClose 0%nat) evs2).
Proof.
  destruct (cleanup_twice warehouse connected)
    as (s1 & s2 & evs1 & evs2 & H1 & H2 & _ & Htr & _ & _ & Hsf & _ & Hl & _).
  exists s1, s2. split; [exact H1|]. split; [exact H2|]. split; [exact Hl|].
  exists evs2. split; [exact Htr|]. apply (Hsf 0%nat). reflexivity.
Defined.

(** ** The dashboard: environment check *)

Lemma truthy_Some o : PyStr.truthy o = true <-> exists v, o = Some v /\ v <> "".
Proof.
  split.
  - destruct o as [[|c v]|]; simpl; try discriminate. intros _. eexists. split; [reflexivity|discriminate].
  - intros (v & -> & Hv). destruct v; [contradiction|reflexivity].
Qed.

(** X14. [check_environment] reports a properly configured environment
    exactly when each of the three variables SNOWFLAKE_ACCOUNT,
    SNOWFLAKE_USER and SNOWFLAKE_PASSWORD is set to a non-empty value and the
    [.env] file exists; a variable set to the empty string counts as
    missing. *)
Theorem check_environment_ok environ dotenv_exists :
  fst (check_environment environ dotenv_exists) = true <->
  (forall var, In var required_vars -> exists v, environ !! var = Some v /\ v <> "") /\
  dotenv_exists = true.
Proof.
  unfold check_environment, required_vars. cbn [fold_left fst].
  split.
  - intros H.
    destruct (PyStr.truthy (environ !! "SNOWFLAKE_ACCOUNT")) eqn:E1;
      destruct (PyStr.truthy (environ !! "SNOWFLAKE_USER")) eqn:E2;
      destruct (PyStr.truthy (environ !! "SNOWFLAKE_PASSWORD")) eqn:E3;
      destruct dotenv_exists; simpl in H; try discriminate.
    split; [|reflexivity].
    intros var [<-|[<-|[<-|[]]]]; apply truthy_Some; assumption.
  - intros [Hv ->].
    rewrite (proj2 (truthy_Some _) (Hv "SNOWFLAKE_ACCOUNT" (or_introl eq_refl))).
    rewrite (proj2 (truthy_Some _) (Hv "SNOWFLAKE_USER" (or_intror (or_introl eq_refl)))).
    rewrite (proj2 (truthy_Some _)
               (Hv "SNOWFLAKE_PASSWORD" (or_intror (or_intror (or_introl eq_refl))))).
    reflexivity.
Qed.

(** X15. The issues [check_environment] lists are one line for each of the
    three variables that is unset or empty, in the order account, user,
    password, followed by the line on the [.env] file when that file does
    not exist; the flag it returns is true exactly when the list is empty. *)
Theorem check_environment_issues environ dotenv_exists :
  snd (check_environment environ dotenv_exists) =
    map (fun var => "Missing environment variable: " +:+ var)
        (List.filter (fun var => negb (PyStr.truthy (environ !! var))) required_vars)
    ++ (if dotenv_exists then [] else ["Missing .env file in project directory"]) /\
  (fst (check_environment environ dotenv_exists) = true <->
   snd (check_environment environ dotenv_exists) = []).
Proof.
  unfold check_environment, required_vars. cbn [fold_left fst snd List.filter].
  destruct (PyStr.truthy (environ !! "SNOWFLAKE_ACCOUNT"));
    destruct (PyStr.truthy (environ !! "SNOWFLAKE_USER"));
    destruct (PyStr.truthy (environ !! "SNOWFLAKE_PASSWORD"));
    destruct dotenv_exists; simpl; (split; [reflexivity|split; [discriminate|discriminate]])
    || (split; [reflexivity|split; reflexivity]).
Qed.

Lemma check_environment_issues_witness :
  snd (check_environment half_configured false)
  = ["Missing environment variable: SNOWFLAKE_PASSWORD";
     "Missing .env file in project directory"].
Proof.
  destruct (check_environment_issues half_configured false) as [H _].
  rewrite H. reflexivity.
Defined.

Lemma check_environment_ok_witness :
  fst (check_environment configured true) = true /\
  check_environment half_configured false
  = (false, ["Missing environment variable: SNOWFLAKE_PASSWORD";
             "Missing .env file in project directory"]).
Proof.
  split; [|reflexivity].
  apply (proj2 (check_environment_ok configured true)). split; [|reflexivity].
  intros var [<-|[<-|[<-|[]]]]; eexists; (split; [reflexivity|discriminate]).
Defined.

(** ** The dashboard: running the pipeline *)

(** X16. [run_data_pipeline] never lets an error of the pipeline through: it
    always returns a flag. The flag is [True] exactly when the run, on a
    pipeline object of its own, returned a result set; the result set then
    has at least one row, the sanitized target table holds it, and the last
    thing shown is the success line with its number of rows. Whatever the
    flag, every session the call opened is closed when it returns. *)
Theorem run_data_pipeline_flag env tn limit s :
  exists b shown s',
    run_data_pipeline env tn limit s = ((b, shown), s') /\
    (b = true <->
     exists df, fst (run_pipeline env tn None limit (new_pipeline s)) = Return (Some df)) /\
    (b = true ->
     exists df query name,
       target env tn None = Some (query, name) /\
       tables s' !! clean_table_name name = Some df /\
       (0 < df_len df)%nat /\
       last shown = Some (StSuccess ("✅ Successfully processed " +:+ pretty (df_len df)
                                     +:+ " rows!"))) /\
    sf_live s' ⊆ sf_live s /\ duck_live s' ⊆ duck_live s.
Proof.
  destruct (run_pipeline_eq env tn None limit (new_pipeline s))
    as (s' & evs & Hrun & (Hsf & Hdk & _) & Ht & _).
  unfold run_data_pipeline. rewrite Hrun. simpl in Hsf, Hdk, Ht.
  destruct (fst (run_result env tn None limit)) as [[d|]|e] eqn:Hres.
  - eexists true, _, s'. split; [reflexivity|].
    split; [split; [intros _; exists d; reflexivity|reflexivity]|].
    split; [|split; assumption].
    intros _.
    destruct (run_result_success env tn None limit d Hres)
      as (q & name & res & _ & _ & Htarget & _ & _ & He & Hf).
    exists d, q, name. split; [exact Htarget|].
    split; [rewrite Ht, Hf; apply lookup_insert_eq|].
    split; [unfold df_empty in He; destruct (df_len d); [discriminate|lia]|].
    rewrite last_app. reflexivity.
  - eexists false, _, s'. split; [reflexivity|].
    split; [split; [discriminate|intros [df Hdf]; discriminate]|].
    split; [discriminate|split; assumption].
  - eexists false, _, s'. split; [reflexivity|].
    split; [split; [discriminate|intros [df Hdf]; discriminate]|].
    split; [discriminate|split; assumption].
Qed.

Lemma run_data_pipeline_flag_witness :
  exists shown s',
    run_data_pipeline warehouse (Some "ORDERS") 1000 init = ((true, shown), s') /\
    tables s' !! "orders" = Some (DataFrame_of orders) /\
    last shown = Some (StSuccess "✅ Successfully processed 3 rows!").
Proof.
  destruct (run_data_pipeline_flag warehouse (Some "ORDERS") 1000 init)
    as (b & shown & s' & Hrun & Hiff & Htrue & _).
  assert (Hb : b = true) by (apply Hiff; eexists; vm_compute; reflexivity).
  subst b. exists shown, s'. split; [exact Hrun|].
  destruct (Htrue eq_refl) as (df & q & name & Htarget & Htab & _ & Hlast).
  injection Htarget as <- <-.
  assert (Hdf : df = DataFrame_of orders).
  { assert (Hs : tables s' !! "orders" = Some (DataFrame_of orders)).
    { replace s' with (snd (run_data_pipeline warehouse (Some "ORDERS") 1000 init))
        by (rewrite Hrun; reflexivity).
      vm_compute. reflexivity. }
    change (clean_table_name (PyStr.lower "ORDERS")) with "orders" in Htab.
    congruence. }
  subst df. split; [exact Htab|exact Hlast].
Defined.

(** X17. What the user of the dashboard is shown when the run does not load:
    when the warehouse cannot be reached, the error line carries the fixed
    message of the pipeline, not the error of the driver; when the
    extraction fails, the error line carries the error of the driver; when
    the extraction yields no row, the status line still reads that the
    pipeline completed successfully and is followed by a warning. The flag
    is [False] in the three cases, and the error lines are followed by the
    troubleshooting tips. *)
Theorem run_data_pipeline_shows env tn limit s :
  (remote_available env = false ->
   fst (run_data_pipeline env tn limit s) =
     (false,
      [ StProgress 0; StEmpty; StText "Connecting to Snowflake..."; StProgress 20;
        StError "❌ Pipeline failed: Could not connect to Snowflake" ]
      ++ troubleshooting_tips)) /\
  (forall query name e,
     remote_available env = true -> duck_connect_fault env = None ->
     target env tn None = Some (query, name) ->
     sf_query env (limited_query query limit) = inl e ->
     fst (run_data_pipeline env tn limit s) =
       (false,
        [ StProgress 0; StEmpty; StText "Connecting to Snowflake..."; StProgress 20;
          StError ("❌ Pipeline failed: " +:+ str e) ]
        ++ troubleshooting_tips)) /\
  (forall query name res,
     remote_available env = true -> duck_connect_fault env = None ->
     target env tn None = Some (query, name) ->
     sf_query env (limited_query query limit) = inr res -> f_rows res = [] ->
     fst (run_data_pipeline env tn limit s) =
       (false,
        [ StProgress 0; StEmpty; StText "Connecting to Snowflake..."; StProgress 20;
          StProgress 100; StText "Pipeline completed successfully!";
          StWarning "⚠️ Pipeline completed but no data was processed" ])).
Proof.
  destruct (run_pipeline_eq env tn None limit (new_pipeline s)) as (s' & evs & Hrun & _).
  unfold run_data_pipeline. rewrite Hrun. unfold run_result, load_result.
  split; [intros ->; reflexivity|]. split.
  - intros q name e -> -> -> Hq. unfold extracted. rewrite Hq. reflexivity.
  - intros q name res -> -> -> Hq Hrows.
    rewrite (extracted_no_rows env q limit res Hq Hrows). reflexivity.
Qed.

Lemma run_data_pipeline_shows_witness :
  fst (run_data_pipeline unreachable (Some "ORDERS") 1000 init) =
    (false,
     [ StProgress 0; StEmpty; StText "Connecting to Snowflake..."; StProgress 20;
       StError "❌ Pipeline failed: Could not connect to Snowflake" ]
     ++ troubleshooting_tips).
Proof.
  destruct (run_data_pipeline_shows unreachable (Some "ORDERS") 1000 init) as [H _].
  apply H. reflexivity.
Defined.

(** ** The dashboard: reading the store *)

Section Dashboard_facts.

Variable env : Env.
Variable listing : gmap string DataFrame -> list string.

Lemma count_tables_cons h t rest stats :
  count_tables env h (t :: rest) stats =
    (table_stats ←
       try_except
         (r ← duck_execute env h (SelectCount t);
          match r with
          | Some count => mret (<[t := count]> stats)
          | None => raise (Exn "TypeError" "'NoneType' object is not subscriptable")
          end)
         (fun _ => mret (<[t := 0%Z]> stats));
     count_tables env h rest table_stats).
Proof. reflexivity. Qed.

Lemma count_tables_live h names stats s :
  is_live h (duck_live s) = true ->
  exists evs,
    count_tables env h names stats s =
      (Return (fold_left (fun st t => <[t := table_count env (tables s) t]> st) names stats),
       log_to s evs).
Proof.
  revert stats s. induction names as [|t names IH]; intros stats s Hl.
  - exists []. unfold count_tables. destruct s; py_run.
    unfold log_to, amend; simpl. rewrite app_nil_r. reflexivity.
  - rewrite count_tables_cons. unfold table_count, sql. py_run.
    destruct (duck_fault env ("SELECT COUNT(*) FROM " +:+ t)) as [e|]; repeat py_step.
    + match goal with |- context [count_tables env h names ?st ?s1] =>
        destruct (IH st s1 Hl) as [evs ->] end.
      eexists. py_done.
    + destruct (tables s !! t) as [df|]; repeat py_step;
        match goal with |- context [count_tables env h names ?st ?s1] =>
          destruct (IH st s1 Hl) as [evs ->] end;
        eexists; py_done.
Qed.

Lemma stats_lookup (f : string -> Z) names (stats : gmap string Z) t :
  fold_left (fun st x => <[x := f x]> st) names stats !! t =
    if decide (t ∈ names) then Some (f t) else stats !! t.
Proof.
  revert stats. induction names as [|a names IH]; intros stats.
  - destruct (decide (t ∈ [])) as [Hin|_]; [|reflexivity].
    apply elem_of_nil in Hin. contradiction.
  - cbn [fold_left]. rewrite IH.
    destruct (decide (t ∈ names)) as [Hin|Hin], (decide (t ∈ a :: names)) as [Hin'|Hin'].
    + reflexivity.
    + exfalso. apply Hin'. apply elem_of_cons. right. exact Hin.
    + apply elem_of_cons in Hin' as [->|Hin']; [apply lookup_insert_eq|contradiction].
    + apply lookup_insert_ne. intros ->. apply Hin'. apply elem_of_cons. left. reflexivity.
Qed.

Lemma released_opened (h : handle) (L : gset handle) : released h (opened h L) ⊆ L.
Proof. apply released_subset, opened_subset. reflexivity. Qed.

(** The dashboard's read when every statement goes through. *)
Lemma load_data_from_duckdb_ok s first rest df :
  duck_connect_fault env = None -> duck_close_fault env = None ->
  duck_fault env list_tables_text = None ->
  listing (tables s) = first :: rest ->
  duck_fault env (preview_text first) = None ->
  tables s !! first = Some df ->
  exists evs,
    load_data_from_duckdb env listing true s =
      (Return ((Some {| df_columns := df_columns df; df_rows := take 1000 (df_rows df) |},
                first :: rest,
                fold_left (fun st t => <[t := table_count env (tables s) t]> st)
                          (first :: rest) ∅),
               []),
       visited s evs).
Proof.
  intros Hco Hcl Hli Hnames Hpr Hdf.
  unfold load_data_from_duckdb, duck_list_tables, duck_preview, visited. py_run.
  match goal with |- context [count_tables env ?h ?n ?st ?s1] =>
    destruct (count_tables_live h n st s1) as [evs Hct]; [simpl; apply is_live_opened|]
  end.
  rewrite Hct. repeat py_step. eexists. py_done.
Qed.

Ltac dash_leaf :=
  eexists _, _, _; split; [reflexivity|]; simpl;
  repeat match goal with
         | |- _ /\ _ => split
         | |- _ ⊆ _ =>
             let x := fresh "x" in
             apply elem_of_subseteq; intros x; unfold released, opened;
             rewrite ?elem_of_difference, ?elem_of_union, ?elem_of_singleton; tauto
         | |- _ = _ => reflexivity
         end.

(** Whatever the store does, the dashboard's read returns, and leaves the
    store and the sessions as they were. *)
Lemma load_data_from_duckdb_any store_file_exists s :
  exists r shown s',
    load_data_from_duckdb env listing store_file_exists s = (Return (r, shown), s') /\
    tables s' = tables s /\ views s' = views s /\
    sf_live s' = sf_live s /\ duck_live s' ⊆ duck_live s /\
    snowflake_conn s' = snowflake_conn s /\ duckdb_conn s' = duckdb_conn s.
Proof.
  destruct store_file_exists;
    [|eexists _, _, s; split; [reflexivity|]; repeat split; reflexivity].
  unfold load_data_from_duckdb, duck_list_tables, duck_preview. py_core.
  destruct (duck_connect_fault env) eqn:Hco; repeat py_step; [dash_leaf|].
  destruct (duck_close_fault env) eqn:Hcl;
    destruct (duck_fault env list_tables_text) eqn:Hli; repeat py_step; try dash_leaf.
  all: destruct (listing (tables s)) as [|first rest] eqn:Hn; repeat py_step; try dash_leaf.
  all: match goal with |- context [count_tables env ?h ?n ?st ?s1] =>
         destruct (count_tables_live h n st s1) as [evs Hct];
           [simpl; rewrite ?is_live_released; apply is_live_opened|]
       end; rewrite Hct; repeat py_step.
  all: destruct (duck_fault env (preview_text first)); repeat py_step; try dash_leaf.
  all: destruct (tables s !! first); repeat py_step; dash_leaf.
Qed.

End Dashboard_facts.

(** X18. [load_data_from_duckdb] is a reader: whatever the store answers or
    rejects, it returns (it never raises), it changes neither the catalog
    nor the staging bindings, it leaves the pipeline object and the
    warehouse sessions alone, and the local session it opened is closed when
    it returns. *)
Theorem load_data_from_duckdb_read_only env listing store_file_exists s :
  exists r shown s',
    load_data_from_duckdb env listing store_file_exists s = (Return (r, shown), s') /\
    tables s' = tables s /\ views s' = views s /\
    sf_live s' = sf_live s /\ duck_live s' ⊆ duck_live s /\
    snowflake_conn s' = snowflake_conn s /\ duckdb_conn s' = duckdb_conn s.
Proof. apply load_data_from_duckdb_any. Qed.

(** X19. When the store is there and every statement goes through, what
    the dashboard gets is: the table names as the store lists them; a row
    count for exactly those names, the number of rows of the table, or 0
    for a table whose count is rejected or that is not in the catalog; and
    as preview the columns and the first 1000 rows of the first listed
    table. Nothing is shown as an error. *)
Theorem load_data_from_duckdb_shows_catalog env listing s first rest df :
  duck_connect_fault env = None -> duck_close_fault env = None ->
  duck_fault env list_tables_text = None ->
  listing (tables s) = first :: rest ->
  duck_fault env (preview_text first) = None ->
  tables s !! first = Some df ->
  exists preview stats s',
    load_data_from_duckdb env listing true s
    = (Return ((Some preview, first :: rest, stats), []), s') /\
    df_columns preview = df_columns df /\
    df_rows preview = take 1000 (df_rows df) /\
    df_len preview = Nat.min 1000 (df_len df) /\
    (forall t, stats !! t =
               if decide (t ∈ first :: rest)
               then Some (match duck_fault env (sql (SelectCount t)) with
                          | Some _ => 0%Z
                          | None =>
                              match tables s !! t with
                              | Some d => Z.of_nat (df_len d)
                              | None => 0%Z
                              end
                          end)
               else None).
Proof.
  intros Hco Hcl Hli Hnames Hpr Hdf.
  destruct (load_data_from_duckdb_ok env listing s first rest df Hco Hcl Hli Hnames Hpr Hdf)
    as [evs Hload].
  eexists _, _, _. split; [exact Hload|].
  split; [reflexivity|]. split; [reflexivity|].
  split; [unfold df_len; cbn [df_rows]; apply length_take|].
  intros t.
  rewrite (stats_lookup (fun x => table_count env (tables s) x) (first :: rest) ∅ t).
  destruct (decide (t ∈ first :: rest)); [reflexivity|apply lookup_empty].
Qed.

Lemma load_data_from_duckdb_shows_catalog_witness :
  exists preview stats s',
    load_data_from_duckdb warehouse by_name true loaded
    = (Return ((Some preview, ["orders"], stats), []), s') /\
    df_len preview = 1%nat /\ stats !! "orders" = Some 1%Z.
Proof.
  destruct (load_data_from_duckdb_shows_catalog warehouse by_name loaded "orders" []
              (DataFrame_of one_order))
    as (preview & stats & s' & Hload & _ & _ & Hlen & Hstats);
    try reflexivity.
  exists preview, stats, s'. split; [exact Hload|]. split; [exact Hlen|].
  rewrite Hstats. reflexivity.
Defined.

(** X20. Nothing to show is not an error. When the store file does not
    exist the dashboard's read opens no session, sends nothing and returns
    no data; when the store lists no table it returns no data after the
    listing statement alone, its session closed. In both cases nothing is
    shown. *)
Theorem load_data_from_duckdb_nothing env listing s :
  load_data_from_duckdb env listing false s = (Return (no_data, []), s) /\
  (duck_connect_fault env = None -> duck_close_fault env = None ->
   duck_fault env list_tables_text = None -> listing (tables s) = [] ->
   exists evs,
     load_data_from_duckdb env listing true s = (Return (no_data, []), visited s evs) /\
     store_statements evs = [list_tables_text]).
Proof.
  split; [reflexivity|].
  intros Hco Hcl Hli Hnames.
  unfold load_data_from_duckdb, duck_list_tables, visited. py_run.
  eexists. split; [py_done|reflexivity].
Qed.

Lemma load_data_from_duckdb_nothing_witness :
  exists evs,
    load_data_from_duckdb warehouse by_name true connected
    = (Return (no_data, []), visited connected evs) /\
    store_statements evs = [list_tables_text].
Proof.
  destruct (load_data_from_duckdb_nothing warehouse by_name connected) as [_ H].
  apply H; reflexivity.
Defined.

(** X21. How the dashboard's read fails. A store that cannot be opened is
    reported as a connection error and no session is opened. A rejected
    listing, and a rejected preview after every count was taken, are
    reported as a query error with the error of the store, and the session
    is closed. In the three cases no data is returned. *)
Theorem load_data_from_duckdb_failures env listing s :
  (forall e, duck_connect_fault env = Some e ->
     exists evs,
       load_data_from_duckdb env listing true s
       = (Return (no_data, [StError ("Error connecting to DuckDB: " +:+ str e)]),
          log_to s evs)) /\
  (forall e, duck_connect_fault env = None -> duck_close_fault env = None ->
     duck_fault env list_tables_text = Some e ->
     exists evs,
       load_data_from_duckdb env listing true s
       = (Return (no_data, [StError ("Error querying DuckDB: " +:+ str e)]),
          visited s evs)) /\
  (forall e first rest, duck_connect_fault env = None -> duck_close_fault env = None ->
     duck_fault env list_tables_text = None -> listing (tables s) = first :: rest ->
     duck_fault env (preview_text first) = Some e ->
     exists evs,
       load_data_from_duckdb env listing true s
       = (Return (no_data, [StError ("Error querying DuckDB: " +:+ str e)]),
          visited s evs)).
Proof.
  split; [|split].
  - intros e Hco. unfold load_data_from_duckdb. py_run. eexists. py_done.
  - intros e Hco Hcl Hli.
    unfold load_data_from_duckdb, duck_list_tables, visited. py_run. eexists. py_done.
  - intros e first rest Hco Hcl Hli Hnames Hpr.
    unfold load_data_from_duckdb, duck_list_tables, duck_preview, visited. py_run.
    match goal with |- context [count_tables env ?h ?n ?st ?s1] =>
      destruct (count_tables_live env h n st s1) as [evs Hct]; [simpl; apply is_live_opened|]
    end.
    rewrite Hct. repeat py_step. eexists. py_done.
Qed.

Lemma load_data_from_duckdb_failures_witness :
  (exists evs,
     load_data_from_duckdb locked_store by_name true loaded
     = (Return (no_data, [StError "Error connecting to DuckDB: Could not set lock on file"]),
        log_to loaded evs)) /\
  (exists evs,
     load_data_from_duckdb no_catalog by_name true loaded
     = (Return (no_data, [StError "Error querying DuckDB: Could not read the catalog"]),
        visited loaded evs)) /\
  (exists evs,
     load_data_from_duckdb no_preview by_name true loaded
     = (Return (no_data, [StError "Error querying DuckDB: Could not read table orders"]),
        visited loaded evs)).
Proof.
  split; [|split].
  - destruct (load_data_from_duckdb_failures locked_store by_name loaded) as [H _].
    apply (H (Exn "IOException" "Could not set lock on file")). reflexivity.
  - destruct (load_data_from_duckdb_failures no_catalog by_name loaded) as (_ & H & _).
    apply (H (Exn "IOException" "Could not read the catalog")); reflexivity.
  - destruct (load_data_from_duckdb_failures no_preview by_name loaded) as (_ & _ & H).
    apply (H (Exn "IOException" "Could not read table orders") "orders" []); reflexivity.
Defined.

(** ** The pipeline and the dashboard together *)





(** ** The connection test *)

Section Connection_test_facts.

Variable env : Env.

Lemma elem_of_opened (h : handle) (L : gset handle) : h ∈ opened h L.
Proof. unfold opened. apply elem_of_union_l, elem_of_singleton. reflexivity. Qed.

Ltac test_leaf :=
  eexists _, _, _, _; split; [reflexivity|]; simpl;
  split; [rewrite <- ?app_assoc; simpl; reflexivity|];
  repeat match goal with
         | |- _ /\ _ => split
         | |- _ = _ => reflexivity
         | |- _ -> _ => intro
         | |- ~ _ => intro
         | H : false = true |- _ => discriminate H
         | H : true = false |- _ => discriminate H
         | H : Some _ = None |- _ => discriminate H
         | |- _ ∈ opened _ _ => apply elem_of_opened
         | |- _ ∉ released _ _ => apply not_in_released
         | H : In _ _ |- False => simpl in H; intuition discriminate
         | H : ?h ∈ released ?h _ |- False => exact (not_in_released _ _ H)
         | |- In _ _ => simpl; tauto
         end.

(** Every way the connection test ends. *)
Lemma test_snowflake_connection_any s :
  exists b printed s' evs,
    test_snowflake_connection env s = (Return (b, printed), s') /\
    trace s' = trace s ++ evs /\
    connect_attempts evs = [true] /\
    tables s' = tables s /\
    (b = true -> (next_handle s ∉ sf_live s') /\ In (SfClose (next_handle s)) evs) /\
    (b = false -> sf_connect_fault env true = None -> sf_close_fault env = None ->
     next_handle s ∈ sf_live s' /\ (~ In (SfClose (next_handle s)) evs)).
Proof.
  unfold test_snowflake_connection, first_field. py_core.
  destruct (sf_connect_fault env true) as [e0|] eqn:Hco; repeat py_step; [test_leaf|].
  destruct (sf_show env version_text) as [e1|[|[|v r] rows]] eqn:Hv; repeat py_step;
    try test_leaf.
  destruct (sf_show env (show_tables_text env)) as [e2|tables] eqn:Ht; repeat py_step;
    [test_leaf|].
  destruct tables as [|row tables];
    [|destruct (print_tables (take 5 (row :: tables)) _) as [printed [e3|]]];
    repeat py_step.
  2: test_leaf.
  all: destruct (sf_close_fault env) as [e4|] eqn:Hcl; repeat py_step; test_leaf.
Qed.

End Connection_test_facts.

Lemma print_tables_all rows printed :
  forallb (fun row => (2 <=? length row)%nat) rows = true ->
  print_tables rows printed
  = (printed ++ map (fun row => "  - " +:+ nth 1 row "") rows, None).
Proof.
  revert printed. induction rows as [|row rows IH]; intros printed H.
  - unfold print_tables. rewrite app_nil_r. reflexivity.
  - cbn [forallb] in H. apply andb_true_iff in H as [Hrow Hrows].
    destruct row as [|a [|b row]]; try discriminate.
    change (print_tables ((a :: b :: row) :: rows) printed)
      with (print_tables rows (printed ++ ["  - " +:+ b])).
    rewrite (IH _ Hrows), <- app_assoc. reflexivity.
Qed.

(** X23. The connection test never raises and makes one connection attempt
    only, in insecure mode: it never tries a verified connection. When it
    returns [True] it has closed the session it opened. When it connected
    and returns [False] (a failing version query, a failing discovery, a
    reported row without a second field among the first five) it has not
    called [close]: the session it opened stays open. The local store is
    not touched. *)
Theorem test_snowflake_connection_session env s :
  exists b printed s' evs,
    test_snowflake_connection env s = (Return (b, printed), s') /\
    trace s' = trace s ++ evs /\
    connect_attempts evs = [true] /\
    tables s' = tables s /\
    (b = true -> (next_handle s ∉ sf_live s') /\ In (SfClose (next_handle s)) evs) /\
    (b = false -> sf_connect_fault env true = None -> sf_close_fault env = None ->
     next_handle s ∈ sf_live s' /\ (~ In (SfClose (next_handle s)) evs)).
Proof. apply test_snowflake_connection_any. Qed.

Lemma test_snowflake_connection_session_witness :
  exists printed s',
    test_snowflake_connection no_version init = (Return (false, printed), s') /\
    next_handle init ∈ sf_live s'.
Proof.
  destruct (test_snowflake_connection_session no_version init)
    as (b & printed & s' & evs & Htest & _ & _ & _ & _ & Hleak).
  assert (Hb : b = false).
  { assert (H : fst (test_snowflake_connection no_version init)
                = Return (b, printed)) by (rewrite Htest; reflexivity).
    vm_compute in H. congruence. }
  subst b. exists printed, s'. split; [exact Htest|].
  apply (Hleak eq_refl eq_refl eq_refl).
Defined.

(** X24. When the insecure connection, the version query and the discovery
    go through, each of the first five reported rows has a second field and
    [close] succeeds, the connection test returns [True] and prints, in
    order: the opening line, the success line, the version, the number of
    reported tables, and, when there are tables, a heading and one line for
    the second field of each of the first five rows; rows beyond the fifth
    are counted but neither printed nor inspected. *)
Theorem test_snowflake_connection_prints env s v r rows tables :
  sf_connect_fault env true = None -> sf_close_fault env = None ->
  sf_show env version_text = inr ((v :: r) :: rows) ->
  sf_show env (show_tables_text env) = inr tables ->
  forallb (fun row => (2 <=? length row)%nat) (take 5 tables) = true ->
  exists s',
    test_snowflake_connection env s =
      (Return (true,
               [ "Testing Snowflake connection...";
                 "✅ Successfully connected to Snowflake!";
                 "📊 Snowflake version: " +:+ v;
                 "📋 Found " +:+ pretty (length tables) +:+ " tables in schema" ]
               ++ match tables with
                  | [] => []
                  | _ :: _ =>
                      "Available tables:"
                      :: map (fun row => "  - " +:+ nth 1 row "") (take 5 tables)
                  end),
       s').
Proof.
  intros Hco Hcl Hv Ht Hrows.
  unfold test_snowflake_connection, first_field. py_core.
  repeat py_step.
  destruct tables as [|row tables]; repeat py_step; [eexists; reflexivity|].
  rewrite (print_tables_all _ _ Hrows). repeat py_step.
  eexists. rewrite <- app_assoc. reflexivity.
Qed.

Lemma test_snowflake_connection_prints_witness :
  exists s',
    test_snowflake_connection versioned init =
      (Return (true,
               [ "Testing Snowflake connection...";
                 "✅ Successfully connected to Snowflake!";
                 "📊 Snowflake version: 8.2.1";
                 "📋 Found 2 tables in schema";
                 "Available tables:"; "  - ORDERS"; "  - ARCHIVE" ]),
       s').
Proof.
  destruct (test_snowflake_connection_prints versioned init "8.2.1" [] []
              [["2024-01-01"; "ORDERS"; "DEMO_DB"]; ["2024-01-02"; "ARCHIVE"; "DEMO_DB"]])
    as [s' H]; try reflexivity.
  exists s'. exact H.
Defined.
